(** * VeikkTabletDriver: the event translator of [veikk.py]

    A shallow embedding of the [Tablet] class and of [main] of [veikk.py],
    and the properties of the translation state machine.

    The program reads raw events from a physical device through libevdev
    and re-emits them on a virtual (uinput) tablet.  The embedding keeps

    - the fields of the [Tablet] object ([is_away], [is_touching],
      [pressed_button_1], [pressed_button_2], [lastmodif]);
    - what the program hands to [uinput.send_events], call after call;
    - what it prints;
    - the readings of [datetime.datetime.now()].

    Methods are computations in a state-and-exception monad over that
    world, written statement by statement after the Python. *)

From Stdlib Require Import ZArith List Bool String Lia.
Import ListNotations.
Local Open Scope string_scope.
Local Open Scope list_scope.
Local Open Scope Z_scope.

Set Implicit Arguments.

(** ** Event codes (libevdev / linux/input-event-codes.h) *)

(** An event code is a type number together with a code number, as
    libevdev's [EventCode] objects are ([code.type.value], [code.value]). *)
Record EventCode : Type := mkCode { ev_type : Z; ev_value : Z }.

Definition EventCode_eqb (a b : EventCode) : bool :=
  (ev_type a =? ev_type b) && (ev_value a =? ev_value b).

Module EV_SYN.
Definition type_value : Z := 0.
Definition SYN_REPORT : EventCode := mkCode type_value 0.
Definition SYN_MT_REPORT : EventCode := mkCode type_value 2.
Definition SYN_DROPPED : EventCode := mkCode type_value 3.
End EV_SYN.

Module EV_KEY.
Definition type_value : Z := 1.
Definition BTN_LEFT : EventCode := mkCode type_value 272.
Definition BTN_TOOL_PEN : EventCode := mkCode type_value 320.
Definition BTN_TOOL_RUBBER : EventCode := mkCode type_value 321.
Definition BTN_TOUCH : EventCode := mkCode type_value 330.
Definition BTN_STYLUS : EventCode := mkCode type_value 331.
Definition BTN_STYLUS2 : EventCode := mkCode type_value 332.
End EV_KEY.

Module EV_ABS.
Definition type_value : Z := 3.
Definition ABS_X : EventCode := mkCode type_value 0.
Definition ABS_Y : EventCode := mkCode type_value 1.
Definition ABS_PRESSURE : EventCode := mkCode type_value 24.
End EV_ABS.

(** Device properties are numbered apart from event codes. *)
Record InputProperty : Type := mkProp { prop_value : Z }.

Definition INPUT_PROP_DIRECT : InputProperty := mkProp 1.

(** ** Events *)

(** [libevdev.InputEvent(code, value, sec=0, usec=0)]: the same class
    serves for the raw events read from the physical device and for the
    events written to the virtual one. *)
Record InputEvent : Type := mkEvent {
  code : EventCode;
  value : Z;
  sec : Z;
  usec : Z
}.

Definition mk_InputEvent (c : EventCode) (v : Z) : InputEvent :=
  mkEvent c v 0 0.

(** [e.matches(c)] for an event code [c]. *)
Definition matches (e : InputEvent) (c : EventCode) : bool :=
  EventCode_eqb (code e) c.

(** ** The world *)

(** A line of standard output.  [print_event(e)] renders [e] with the
    names libevdev gives to types and codes; the trace keeps the event
    itself in its place, and one entry for all that
    [print_capabilities(l)] prints about the physical device. *)
Inductive OutLine : Type :=
| Text (s : string)
| EventTrace (e : InputEvent)
| CapabilityReport.

(** The fields [reset_state] gives to the [Tablet] object. *)
Record TabletState : Type := mkTablet {
  is_away : bool;
  is_touching : bool;
  pressed_button_1 : bool;
  pressed_button_2 : bool;
  lastmodif : Z
}.

Record World : Type := mkWorld {
  tablet : TabletState;
  (** the argument of every [uinput.send_events] call so far, oldest first *)
  uinput : list (list InputEvent);
  (** the lines printed so far, oldest first *)
  stdout : list OutLine;
  (** the [n]-th reading of [datetime.datetime.now()] *)
  clock : nat -> Z;
  (** the number of readings taken so far *)
  reads : nat
}.

(** ** Exceptions and the monad *)

Inductive Exn : Type :=
| KeyboardInterrupt
| OSError (errno : option Z) (message : string)
| OtherException (name : string).

Inductive Res (A : Type) : Type :=
| Ok (a : A)
| Raise (x : Exn).

Arguments Raise {A} x.

Definition M (A : Type) : Type := World -> Res A * World.

Definition ret {A} (a : A) : M A := fun w => (Ok a, w).

Definition bind {A B} (m : M A) (k : A -> M B) : M B :=
  fun w =>
    match m w with
    | (Ok a, w') => k a w'
    | (Raise x, w') => (Raise x, w')
    end.

Definition raise {A} (x : Exn) : M A := fun w => (Raise x, w).

Notation "x <- m ;; k" := (bind m (fun x => k))
  (at level 61, m at next level, right associativity).
Notation "m ;; k" := (bind m (fun _ => k))
  (at level 61, right associativity).

Definition get_tablet : M TabletState := fun w => (Ok (tablet w), w).

Definition put_tablet (t : TabletState) : M unit :=
  fun w => (Ok tt, mkWorld t (uinput w) (stdout w) (clock w) (reads w)).

(** [datetime.datetime.now()] *)
Definition now : M Z :=
  fun w => (Ok (clock w (reads w)),
            mkWorld (tablet w) (uinput w) (stdout w) (clock w) (S (reads w))).

(** [self.uinput.send_events(events)] *)
Definition uinput_send_events (events : list InputEvent) : M unit :=
  fun w => (Ok tt,
            mkWorld (tablet w) (uinput w ++ [events]) (stdout w) (clock w) (reads w)).

Definition print (l : OutLine) : M unit :=
  fun w => (Ok tt,
            mkWorld (tablet w) (uinput w) (stdout w ++ [l]) (clock w) (reads w)).

(** [print_event(e)] *)
Definition print_event (e : InputEvent) : M unit := print (EventTrace e).

(** Field assignments [self.f = v]. *)
Definition set_is_away (b : bool) : M unit :=
  t <- get_tablet ;;
  put_tablet (mkTablet b (is_touching t) (pressed_button_1 t) (pressed_button_2 t) (lastmodif t)).

Definition set_is_touching (b : bool) : M unit :=
  t <- get_tablet ;;
  put_tablet (mkTablet (is_away t) b (pressed_button_1 t) (pressed_button_2 t) (lastmodif t)).

Definition set_pressed_button_1 (b : bool) : M unit :=
  t <- get_tablet ;;
  put_tablet (mkTablet (is_away t) (is_touching t) b (pressed_button_2 t) (lastmodif t)).

Definition set_pressed_button_2 (b : bool) : M unit :=
  t <- get_tablet ;;
  put_tablet (mkTablet (is_away t) (is_touching t) (pressed_button_1 t) b (lastmodif t)).

Definition set_lastmodif (z : Z) : M unit :=
  t <- get_tablet ;;
  put_tablet (mkTablet (is_away t) (is_touching t) (pressed_button_1 t) (pressed_button_2 t) z).

(** Python's [str(b)] of a bool, and [1 if b else 0]. *)
Definition str_bool (b : bool) : string := if b then "True" else "False".

Definition int_of_bool (b : bool) : Z := if b then 1 else 0.

(** ** The [Tablet] methods *)

Definition reset_state : M unit :=
  set_is_away true ;;
  set_is_touching false ;;
  set_pressed_button_1 false ;;
  set_pressed_button_2 false ;;
  t <- now ;;
  set_lastmodif t.

Definition send_events (events : list InputEvent) (is_away_arg : bool) : M unit :=
  t <- now ;;
  set_lastmodif t ;;
  set_is_away is_away_arg ;;
  uinput_send_events events.

(** The list [send_state_no_pos] writes, from the fields as they are
    when it is built. *)
Definition state_burst (t : TabletState) : list InputEvent :=
  [ mk_InputEvent EV_KEY.BTN_TOUCH (int_of_bool (is_touching t));
    mk_InputEvent EV_KEY.BTN_TOOL_PEN (int_of_bool (negb (is_away t)));
    mk_InputEvent EV_KEY.BTN_STYLUS (int_of_bool (pressed_button_1 t));
    mk_InputEvent EV_KEY.BTN_STYLUS2 (int_of_bool (pressed_button_2 t));
    mk_InputEvent EV_SYN.SYN_REPORT 0 ].

Definition send_state_no_pos (is_away_arg : bool) : M unit :=
  t <- now ;;
  set_lastmodif t ;;
  set_is_away is_away_arg ;;
  s <- get_tablet ;;
  print (Text ("Away: " ++ str_bool (is_away s) ++ ", Touching: " ++ str_bool (is_touching s))%string) ;;
  s <- get_tablet ;;
  uinput_send_events (state_burst s).

(** The default of the [is_away] parameter of [send_events] and
    [send_state_no_pos]; every call in the program relies on it. *)
Definition is_away_default : bool := false.

Definition touch_press : M unit :=
  set_is_touching true ;;
  send_state_no_pos is_away_default.

Definition touch_release : M unit :=
  set_is_touching false ;;
  send_state_no_pos is_away_default.

Definition button_1_press : M unit :=
  set_pressed_button_1 true ;;
  send_state_no_pos is_away_default.

Definition button_1_release : M unit :=
  set_pressed_button_1 false ;;
  send_state_no_pos is_away_default.

Definition button_2_press : M unit :=
  set_pressed_button_2 true ;;
  send_state_no_pos is_away_default.

Definition button_2_release : M unit :=
  set_pressed_button_2 false ;;
  send_state_no_pos is_away_default.

Definition move_x (abs_x : Z) : M unit :=
  send_events [mk_InputEvent EV_ABS.ABS_X abs_x] is_away_default.

Definition move_y (abs_y : Z) : M unit :=
  send_events [mk_InputEvent EV_ABS.ABS_Y abs_y] is_away_default.

Definition change_pressure (pressure : Z) : M unit :=
  send_events [mk_InputEvent EV_ABS.ABS_PRESSURE pressure] is_away_default.

Definition handle_event (e : InputEvent) : M unit :=
  if matches e EV_ABS.ABS_PRESSURE then change_pressure (value e)
  else if matches e EV_ABS.ABS_X then move_x (value e)
  else if matches e EV_ABS.ABS_Y then move_y (value e)
  else if matches e EV_KEY.BTN_LEFT then
    if value e =? 1 then touch_press else touch_release
  else if matches e EV_SYN.SYN_REPORT then
    (* an InputEvent is built and thrown away; nothing is sent *)
    let _ := mk_InputEvent EV_SYN.SYN_REPORT 0 in ret tt
  else
    print (Text "Unkown event:") ;;
    print_event e.

(** The codes the docstring of [handle_event] lists as supported:
    ABS_PRESSURE, ABS_X, ABS_Y, BTN_LEFT, SYN_REPORT. *)
Definition supported_codes : list EventCode :=
  [ EV_ABS.ABS_PRESSURE; EV_ABS.ABS_X; EV_ABS.ABS_Y; EV_KEY.BTN_LEFT; EV_SYN.SYN_REPORT ].

Definition supported (e : InputEvent) : bool :=
  existsb (matches e) supported_codes.

(** The events on which [handle_event] calls a method that writes to the
    virtual device: the three axes and the touch key. *)
Definition forwarded (e : InputEvent) : bool :=
  existsb (matches e) [ EV_ABS.ABS_PRESSURE; EV_ABS.ABS_X; EV_ABS.ABS_Y; EV_KEY.BTN_LEFT ].

(** ** The capability declaration of [Tablet.__enter__] *)

(** [libevdev.InputAbsInfo(minimum=None, maximum=None, fuzz=None,
    flat=None, resolution=None, value=None)]: a field that is not given
    stays [None]. *)
Record InputAbsInfo : Type := mkAbsInfo {
  minimum : option Z;
  maximum : option Z;
  fuzz : option Z;
  flat : option Z;
  resolution : option Z;
  abs_value : option Z
}.

(** A [libevdev.Device()] that is being described: its name, the
    properties enabled and the event codes enabled, each with the data
    given to [enable], in the order of the calls. *)
Record Device : Type := mkDevice {
  dev_name : string;
  dev_properties : list InputProperty;
  dev_evbits : list (EventCode * option InputAbsInfo)
}.

Definition Device_new : Device := mkDevice "" [] [].

Definition set_name (n : string) (d : Device) : Device :=
  mkDevice n (dev_properties d) (dev_evbits d).

Definition InputProperty_eqb (a b : InputProperty) : bool :=
  prop_value a =? prop_value b.

(** [dev.enable(p)] for a property: a bit is set, so enabling twice
    changes nothing. *)
Definition enable_property (p : InputProperty) (d : Device) : Device :=
  if existsb (InputProperty_eqb p) (dev_properties d) then d
  else mkDevice (dev_name d) (dev_properties d ++ [p]) (dev_evbits d).

(** [dev.enable(c, data)] for an event code: the code's bit is set and
    its data replaced. *)
Definition enable (c : EventCode) (data : option InputAbsInfo) (d : Device) : Device :=
  mkDevice (dev_name d) (dev_properties d)
    (filter (fun cd => negb (EventCode_eqb (fst cd) c)) (dev_evbits d) ++ [(c, data)]).

(** The device [__enter__] describes before it calls
    [create_uinput_device], call by call. *)
Definition Tablet_dev : Device :=
  let dev := Device_new in
  let dev := set_name "Tablet alone" dev in
  let dev := enable_property INPUT_PROP_DIRECT dev in
  let dev := enable EV_KEY.BTN_TOOL_PEN None dev in
  let dev := enable EV_KEY.BTN_TOOL_RUBBER None dev in
  let dev := enable EV_KEY.BTN_TOUCH None dev in
  let dev := enable EV_KEY.BTN_STYLUS None dev in
  let dev := enable EV_KEY.BTN_STYLUS2 None dev in
  let dev := enable EV_ABS.ABS_X
               (Some (mkAbsInfo (Some 0) (Some 32767) None None (Some 100) None)) dev in
  let dev := enable EV_ABS.ABS_Y
               (Some (mkAbsInfo (Some 0) (Some 32767) None None (Some 100) None)) dev in
  let dev := enable EV_ABS.ABS_PRESSURE
               (Some (mkAbsInfo (Some 0) (Some 8191) None None None None)) dev in
  let dev := enable EV_SYN.SYN_REPORT None dev in
  let dev := enable EV_SYN.SYN_DROPPED None dev in
  dev.

(** Readings of a described device. *)
Definition has_property (d : Device) (p : InputProperty) : bool :=
  existsb (InputProperty_eqb p) (dev_properties d).

Definition has_event (d : Device) (c : EventCode) : bool :=
  existsb (fun cd => EventCode_eqb (fst cd) c) (dev_evbits d).

Definition absinfo (d : Device) (c : EventCode) : option InputAbsInfo :=
  match find (fun cd => EventCode_eqb (fst cd) c) (dev_evbits d) with
  | Some (_, data) => data
  | None => None
  end.

(** ** [main] *)

(** What the outside world does during one run: whether creating the
    uinput device and opening the physical device succeed, the batches
    libevdev delivers, and the exception that ends the endless loop. *)
Record Batch : Type := mkBatch {
  (** what the generator [l.events()] yields *)
  events : list InputEvent;
  (** [Some s] when the generator then raises [EventsDroppedException],
      [s] being what [l.sync()] yields; [None] when it just ends *)
  dropped : option (list InputEvent)
}.

Record Env : Type := mkEnv {
  devnode : string;
  syspath : string;
  create_uinput_device : option Exn;
  open_path : option Exn;
  batches : list Batch;
  stop : Exn
}.

Definition EventsDroppedException : Exn := OtherException "EventsDroppedException".

Definition is_EventsDroppedException (x : Exn) : bool :=
  match x with
  | OtherException n => String.eqb n "EventsDroppedException"
  | _ => false
  end.

Definition try_except {A} (m : M A) (handler : Exn -> M A) : M A :=
  fun w =>
    match m w with
    | (Ok a, w') => (Ok a, w')
    | (Raise x, w') => handler x w'
    end.

Fixpoint for_each {A} (body : A -> M unit) (l : list A) : M unit :=
  match l with
  | [] => ret tt
  | a :: l' => body a ;; for_each body l'
  end.

(** An external call that fails with [x] when the world says so. *)
Definition outcome_of (r : option Exn) : M unit :=
  match r with
  | None => ret tt
  | Some x => raise x
  end.

Definition Tablet_enter (env : Env) : M Device :=
  let dev := Tablet_dev in
  outcome_of (create_uinput_device env) ;;
  print (Text ("New device at " ++ devnode env ++ " (" ++ syspath env ++ ")")%string) ;;
  (* time.sleep(1) *)
  reset_state ;;
  ret dev.

(** The two lines of the loop body: [print_event(e)], [tablet.handle_event(e)]. *)
Definition trace_and_handle (e : InputEvent) : M unit :=
  print_event e ;;
  handle_event e.

(** One turn of [while True]. *)
Definition loop_turn (b : Batch) : M unit :=
  try_except
    (for_each trace_and_handle (events b) ;;
     match dropped b with
     | Some _ => raise EventsDroppedException
     | None => ret tt
     end)
    (fun x =>
       if is_EventsDroppedException x then
         for_each trace_and_handle
           (match dropped b with Some s => s | None => [] end)
       else raise x).

Definition main_loop (bs : list Batch) : M unit := for_each loop_turn bs.

Definition banner : string :=
  "################################
#      Waiting for events      #
################################".

Definition EACCES : Z := 13.
Definition ENOENT : Z := 2.

(** [isinstance(x, OSError)].  [IOError] is the same class as [OSError]
    in Python 3, which the program's first line asks for. *)
Definition isinstance_KeyboardInterrupt (x : Exn) : bool :=
  match x with KeyboardInterrupt => true | _ => false end.

Definition isinstance_OSError (x : Exn) : bool :=
  match x with OSError _ _ => true | _ => false end.

Definition isinstance_IOError : Exn -> bool := isinstance_OSError.

Definition errno_is (x : Exn) (n : Z) : bool :=
  match x with
  | OSError (Some k) _ => k =? n
  | _ => false
  end.

Definition str_exn (x : Exn) : string :=
  match x with
  | KeyboardInterrupt => ""
  | OSError _ s => s
  | OtherException n => n
  end.

(** The [except] clauses of [main], tried in order; an exception raised
    inside a clause leaves the [try] statement. *)
Definition main_except (path : string) (x : Exn) : M unit :=
  if isinstance_KeyboardInterrupt x then ret tt
  else if isinstance_IOError x then
    if errno_is x EACCES then
      print (Text ("Insufficient permissions to access " ++ path)%string)
    else if errno_is x ENOENT then
      print (Text ("Device " ++ path ++ " does not exist")%string)
    else raise x
  else if isinstance_OSError x then print (Text (str_exn x))
  else raise x.

Definition main (path : string) (env : Env) : M unit :=
  try_except
    (_ <- Tablet_enter env ;;
     outcome_of (open_path env) ;;
     print CapabilityReport ;;
     print (Text banner) ;;
     main_loop (batches env) ;;
     raise (stop env))
    (main_except path).

(** The world after a computation, and its result. *)
Definition exec {A} (m : M A) (w : World) : World := snd (m w).

Definition result {A} (m : M A) (w : World) : Res A := fst (m w).

(** A world in which nothing has been written or printed yet. *)
Definition blank (clk : nat -> Z) : World :=
  mkWorld (mkTablet false false false false 0) [] [] clk 0.

(** The world [__enter__] leaves behind its call of [reset_state]. *)
Definition initial (clk : nat -> Z) : World := exec reset_state (blank clk).

(** ** Notions the properties are stated with *)

(** The tablet fields after [send_state_no_pos a] or [send_events _ a]
    in world [w]: [is_away] and [lastmodif] are overwritten. *)
Definition touched (a : bool) (w : World) : TabletState :=
  mkTablet a (is_touching (tablet w)) (pressed_button_1 (tablet w))
    (pressed_button_2 (tablet w)) (clock w (reads w)).

Definition away_line (t : TabletState) : OutLine :=
  Text ("Away: " ++ str_bool (is_away t) ++ ", Touching: " ++ str_bool (is_touching t))%string.

(** The world with the field [is_touching] assigned. *)
Definition with_touching (b : bool) (w : World) : World :=
  exec (set_is_touching b) w.

(** The branch of [handle_event] a raw event takes. *)
Inductive event_case (e : InputEvent) : Prop :=
| case_pressure : code e = EV_ABS.ABS_PRESSURE -> event_case e
| case_x : code e = EV_ABS.ABS_X -> event_case e
| case_y : code e = EV_ABS.ABS_Y -> event_case e
| case_touch : code e = EV_KEY.BTN_LEFT -> event_case e
| case_sync : code e = EV_SYN.SYN_REPORT -> event_case e
| case_unknown : supported e = false -> event_case e.

(** The world after the loop body on [e], and after a list of events. *)
Definition step (e : InputEvent) (w : World) : World :=
  exec (trace_and_handle e) w.

Definition run (es : list InputEvent) (w : World) : World :=
  fold_left (fun w e => step e w) es w.

(** Everything one turn of the loop hands to [handle_event], in order. *)
Definition batch_events (b : Batch) : list InputEvent :=
  events b ++ match dropped b with Some s => s | None => [] end.

(** The raw events of the three axis branches, and of the touch branch. *)
Definition is_axis (e : InputEvent) : bool :=
  matches e EV_ABS.ABS_PRESSURE || matches e EV_ABS.ABS_X || matches e EV_ABS.ABS_Y.

Definition is_touch_key (e : InputEvent) : bool := matches e EV_KEY.BTN_LEFT.

(** The burst for given touch and button fields, [is_away] being false. *)
Definition present_burst (touching b1 b2 : bool) : list InputEvent :=
  state_burst (mkTablet false touching b1 b2 0).

(** The writes a list of raw events causes, from the touch and button
    fields before it. *)
Fixpoint translate (es : list InputEvent) (touching b1 b2 : bool)
  : list (list InputEvent) :=
  match es with
  | [] => []
  | e :: es' =>
      if is_axis e then
        [mk_InputEvent (code e) (value e)] :: translate es' touching b1 b2
      else if is_touch_key e then
        present_burst (value e =? 1) b1 b2 :: translate es' (value e =? 1) b1 b2
      else translate es' touching b1 b2
  end.

(** The field [is_touching] after a list of raw events. *)
Definition touch_after (es : list InputEvent) (touching : bool) : bool :=
  fold_left (fun t e => if is_touch_key e then value e =? 1 else t) es touching.

(** The snapshot bursts among a list of writes, and the proximity a
    write reports. *)
Definition is_snapshot (evs : list InputEvent) : bool :=
  match evs with
  | [t; p; s1; s2; r] =>
      matches t EV_KEY.BTN_TOUCH && matches p EV_KEY.BTN_TOOL_PEN &&
      matches s1 EV_KEY.BTN_STYLUS && matches s2 EV_KEY.BTN_STYLUS2 &&
      matches r EV_SYN.SYN_REPORT
  | _ => false
  end.

Definition proximity (evs : list InputEvent) : option Z :=
  option_map value (find (fun e => matches e EV_KEY.BTN_TOOL_PEN) evs).

Definition has_sync (evs : list InputEvent) : bool :=
  existsb (fun e => matches e EV_SYN.SYN_REPORT) evs.

(** The worlds the program can be in once [reset_state] has run: it
    prints, and it handles raw events, ordinary or resync ones. *)
Inductive Reachable : World -> Prop :=
| reach_reset (w : World) : Reachable (exec reset_state w)
| reach_print (l : OutLine) (w : World) :
    Reachable w -> Reachable (exec (print l) w)
| reach_handle (e : InputEvent) (w : World) :
    Reachable w -> Reachable (exec (handle_event e) w).

(** Away implies not touching. *)
Definition away_not_touching (t : TabletState) : Prop :=
  is_away t = true -> is_touching t = false.

(** The four booleans of the tablet. *)
Definition flags (t : TabletState) : bool * bool * bool * bool :=
  (is_away t, is_touching t, pressed_button_1 t, pressed_button_2 t).

(** The six methods that assign one boolean and send the state. *)
Definition state_methods : list (M unit) :=
  [ touch_press; touch_release;
    button_1_press; button_1_release;
    button_2_press; button_2_release ].

(** A run in which the physical tablet is unplugged while the loop
    waits for events: libevdev raises OSError with errno ENODEV. *)
Definition ENODEV : Z := 19.

Definition env_unplugged : Env :=
  mkEnv "/dev/input/event20" "/sys/devices/virtual/input/input30"
        None None
        [mkBatch [mk_InputEvent EV_KEY.BTN_LEFT 1; mk_InputEvent EV_SYN.SYN_REPORT 0] None]
        (OSError (Some ENODEV) "[Errno 19] No such device").

(** The event codes [__enter__] enables. *)
Definition declared_codes : list EventCode :=
  [ EV_KEY.BTN_TOOL_PEN; EV_KEY.BTN_TOOL_RUBBER; EV_KEY.BTN_TOUCH;
    EV_KEY.BTN_STYLUS; EV_KEY.BTN_STYLUS2;
    EV_ABS.ABS_X; EV_ABS.ABS_Y; EV_ABS.ABS_PRESSURE;
    EV_SYN.SYN_REPORT; EV_SYN.SYN_DROPPED ].

(** ** The rest of the program *)

(** [Tablet.simulate_first_click]: two writes straight to the uinput
    device, the pen near the surface and then the pen out of range.  It
    assigns no field of the object.  ([__enter__] has its call commented
    out.) *)
Definition simulate_first_click : M unit :=
  uinput_send_events
    [ mk_InputEvent EV_KEY.BTN_TOUCH 0;
      mk_InputEvent EV_KEY.BTN_TOOL_PEN 1;
      mk_InputEvent EV_SYN.SYN_REPORT 0 ] ;;
  uinput_send_events
    [ mk_InputEvent EV_KEY.BTN_TOUCH 0;
      mk_InputEvent EV_KEY.BTN_TOOL_PEN 0;
      mk_InputEvent EV_SYN.SYN_REPORT 0 ].

(** The three numbers the first line of [print_capabilities] prints for
    a driver version [v]: [v >> 16], [(v >> 8) & 0xff], [v & 0xff]. *)
Definition driver_version_fields (v : Z) : Z * Z * Z :=
  (Z.shiftr v 16, Z.land (Z.shiftr v 8) 255, Z.land v 255).

(** How the process ends: with an exit status, or on an exception
    nothing caught. *)
Inductive ProcessEnd : Type :=
| Exited (status : Z)
| Uncaught (x : Exn).

Definition IndexError : Exn := OtherException "IndexError".

(** [main(args)]: [path = args[1]] comes before the [try]. *)
Definition main_args (args : list string) (env : Env) : M unit :=
  match nth_error args 1 with
  | None => raise IndexError
  | Some path => main path env
  end.

(** The three lines printed before [sys.exit(1)]. *)
Definition usage (argv0 : string) : list OutLine :=
  [ Text ("Usage: sudo " ++ argv0 ++ " /dev/input/eventX")%string;
    Text " $ sudo evtest";
    Text "can help you to know which file to use." ].

(** The block under [if __name__ == "__main__"], for [sys.argv = argv]. *)
Definition script (argv : list string) (env : Env) (w : World) : ProcessEnd * World :=
  if negb (Nat.eqb (List.length argv) 2) then
    match nth_error argv 0 with
    | None => (Uncaught IndexError, w)
    | Some argv0 => (Exited 1, exec (for_each print (usage argv0)) w)
    end
  else
    match main_args argv env w with
    | (Ok _, w') => (Exited 0, w')
    | (Raise x, w') => (Uncaught x, w')
    end.

(** ** Notions the further properties are stated with *)

(** The exception that ends [main]: the first external call that fails,
    or else the one that stops the loop. *)
Definition first_exception (env : Env) : Exn :=
  match create_uinput_device env with
  | Some x => x
  | None =>
      match open_path env with
      | Some x => x
      | None => stop env
      end
  end.

(** The world in which the [except] clauses of [main] are tried. *)
Definition before_handler (env : Env) (w : World) : World :=
  match create_uinput_device env with
  | Some _ => w
  | None =>
      let w1 :=
        exec (print (Text ("New device at " ++ devnode env ++ " (" ++ syspath env ++ ")")%string) ;;
              reset_state) w in
      match open_path env with
      | Some _ => w1
      | None =>
          run (flat_map batch_events (batches env))
              (exec (print CapabilityReport ;; print (Text banner)) w1)
      end
  end.

(** The exceptions an [except] clause of [main] swallows. *)
Definition swallowed (x : Exn) : bool :=
  isinstance_KeyboardInterrupt x || errno_is x EACCES || errno_is x ENOENT.

(** What the loop prints for a list of raw events. *)
Fixpoint transcript (es : list InputEvent) : list OutLine :=
  match es with
  | [] => []
  | e :: es' =>
      EventTrace e ::
      (if is_axis e then []
       else if is_touch_key e then
         [away_line (mkTablet false (value e =? 1) false false 0)]
       else if matches e EV_SYN.SYN_REPORT then []
       else [Text "Unkown event:"; EventTrace e])
      ++ transcript es'
  end.

(** The events traced in an output. *)
Definition traced (out : list OutLine) : list InputEvent :=
  flat_map (fun l => match l with EventTrace e => [e] | _ => [] end) out.

(** The number of SYN_REPORT events in a list of writes. *)
Definition sync_count (writes : list (list InputEvent)) : nat :=
  List.length (filter (fun ev => matches ev EV_SYN.SYN_REPORT) (List.concat writes)).

(** The codes the translator writes. *)
Definition written_codes : list EventCode :=
  [ EV_KEY.BTN_TOUCH; EV_KEY.BTN_TOOL_PEN; EV_KEY.BTN_STYLUS; EV_KEY.BTN_STYLUS2;
    EV_SYN.SYN_REPORT; EV_ABS.ABS_X; EV_ABS.ABS_Y; EV_ABS.ABS_PRESSURE ].

Definition writes_only (codes : list EventCode) (writes : list (list InputEvent)) : Prop :=
  Forall (Forall (fun ev => In (code ev) codes)) writes.

(** A write reports no stylus button pressed. *)
Definition stylus_released (evs : list InputEvent) : Prop :=
  Forall (fun ev =>
            (matches ev EV_KEY.BTN_STYLUS || matches ev EV_KEY.BTN_STYLUS2) = true ->
            value ev = 0) evs.

(** * Properties *)

(** ** Event codes *)

Lemma EventCode_eqb_spec (a b : EventCode) :
  reflect (a = b) (EventCode_eqb a b).
Proof.
  destruct a as [t1 c1], b as [t2 c2]; unfold EventCode_eqb; simpl.
  destruct (Z.eqb_spec t1 t2) as [-> | Ht]; simpl.
  - destruct (Z.eqb_spec c1 c2) as [-> | Hc]; constructor; congruence.
  - constructor; congruence.
Qed.

Lemma EventCode_eqb_refl (a : EventCode) : EventCode_eqb a a = true.
Proof. destruct (EventCode_eqb_spec a a); congruence. Qed.

(** ** What each method does to the world *)

Lemma send_events_run (evs : list InputEvent) (a : bool) (w : World) :
  send_events evs a w =
  (Ok tt, mkWorld (touched a w) (uinput w ++ [evs]) (stdout w) (clock w) (S (reads w))).
Proof. reflexivity. Qed.

Lemma send_state_no_pos_run (a : bool) (w : World) :
  send_state_no_pos a w =
  (Ok tt, mkWorld (touched a w) (uinput w ++ [state_burst (touched a w)])
            (stdout w ++ [away_line (touched a w)]) (clock w) (S (reads w))).
Proof. reflexivity. Qed.

Lemma touch_run (b : bool) (w : World) :
  (if b then touch_press else touch_release) w =
  send_state_no_pos is_away_default (with_touching b w).
Proof. destruct b; reflexivity. Qed.

(** ** Case analysis on the code of a raw event *)

Lemma matches_iff (e : InputEvent) (c : EventCode) :
  matches e c = true <-> code e = c.
Proof.
  unfold matches. destruct (EventCode_eqb_spec (code e) c); split; congruence.
Qed.

Lemma event_cases (e : InputEvent) : event_case e.
Proof.
  destruct (matches e EV_ABS.ABS_PRESSURE) eqn:Hp;
    [ apply case_pressure, matches_iff, Hp | ].
  destruct (matches e EV_ABS.ABS_X) eqn:Hx;
    [ apply case_x, matches_iff, Hx | ].
  destruct (matches e EV_ABS.ABS_Y) eqn:Hy;
    [ apply case_y, matches_iff, Hy | ].
  destruct (matches e EV_KEY.BTN_LEFT) eqn:Ht;
    [ apply case_touch, matches_iff, Ht | ].
  destruct (matches e EV_SYN.SYN_REPORT) eqn:Hs;
    [ apply case_sync, matches_iff, Hs | ].
  apply case_unknown. unfold supported, supported_codes; simpl.
  rewrite Hp, Hx, Hy, Ht, Hs. reflexivity.
Qed.

(** Once the code of [e] is known, every [matches] test computes. *)
Ltac known_code H :=
  unfold handle_event, supported, forwarded, supported_codes, matches; simpl;
  rewrite H; simpl.

Lemma supported_false (e : InputEvent) :
  supported e = false ->
  matches e EV_ABS.ABS_PRESSURE = false /\ matches e EV_ABS.ABS_X = false /\
  matches e EV_ABS.ABS_Y = false /\ matches e EV_KEY.BTN_LEFT = false /\
  matches e EV_SYN.SYN_REPORT = false.
Proof.
  unfold supported, supported_codes; simpl. intros H.
  repeat (apply orb_false_elim in H; destruct H as [? H]).
  repeat split; assumption.
Qed.

Lemma handle_pressure (e : InputEvent) (w : World) :
  code e = EV_ABS.ABS_PRESSURE ->
  handle_event e w = change_pressure (value e) w.
Proof. intros H. known_code H. reflexivity. Qed.

Lemma handle_x (e : InputEvent) (w : World) :
  code e = EV_ABS.ABS_X -> handle_event e w = move_x (value e) w.
Proof. intros H. known_code H. reflexivity. Qed.

Lemma handle_y (e : InputEvent) (w : World) :
  code e = EV_ABS.ABS_Y -> handle_event e w = move_y (value e) w.
Proof. intros H. known_code H. reflexivity. Qed.

Lemma handle_touch (e : InputEvent) (w : World) :
  code e = EV_KEY.BTN_LEFT ->
  handle_event e w =
  send_state_no_pos is_away_default (with_touching (value e =? 1) w).
Proof. intros H. known_code H. apply touch_run. Qed.

Lemma handle_sync (e : InputEvent) (w : World) :
  code e = EV_SYN.SYN_REPORT -> handle_event e w = (Ok tt, w).
Proof. intros H. known_code H. reflexivity. Qed.

Lemma handle_unknown (e : InputEvent) (w : World) :
  supported e = false ->
  handle_event e w =
  (Ok tt, mkWorld (tablet w) (uinput w)
            ((stdout w ++ [Text "Unkown event:"]) ++ [EventTrace e])
            (clock w) (reads w)).
Proof.
  intros H. destruct (supported_false e H) as (Hp & Hx & Hy & Ht & Hs).
  unfold handle_event. rewrite Hp, Hx, Hy, Ht, Hs. reflexivity.
Qed.

(** [handle_event] returns normally on every event. *)
Lemma handle_event_returns (e : InputEvent) (w : World) :
  handle_event e w = (Ok tt, exec (handle_event e) w).
Proof.
  destruct (event_cases e) as [H | H | H | H | H | H]; unfold exec.
  - rewrite (handle_pressure e w H). reflexivity.
  - rewrite (handle_x e w H). reflexivity.
  - rewrite (handle_y e w H). reflexivity.
  - rewrite (handle_touch e w H). reflexivity.
  - rewrite (handle_sync e w H). reflexivity.
  - rewrite (handle_unknown e w H). reflexivity.
Qed.

(** ** The loop as a fold *)

Lemma trace_and_handle_returns (e : InputEvent) (w : World) :
  trace_and_handle e w = (Ok tt, step e w).
Proof.
  unfold step, exec, trace_and_handle, bind, print_event, print.
  rewrite handle_event_returns. reflexivity.
Qed.

Lemma for_each_run (es : list InputEvent) (w : World) :
  for_each trace_and_handle es w = (Ok tt, run es w).
Proof.
  revert w. induction es as [| e es IH]; intros w; [reflexivity |].
  simpl. unfold bind at 1. rewrite trace_and_handle_returns. apply IH.
Qed.

Lemma run_app (l1 l2 : list InputEvent) (w : World) :
  run (l1 ++ l2) w = run l2 (run l1 w).
Proof. unfold run. apply fold_left_app. Qed.

Lemma loop_turn_run (b : Batch) (w : World) :
  loop_turn b w = (Ok tt, run (batch_events b) w).
Proof.
  unfold loop_turn, try_except, bind, batch_events.
  rewrite for_each_run. destruct (dropped b) as [s |]; simpl.
  - rewrite for_each_run, run_app. reflexivity.
  - rewrite app_nil_r. reflexivity.
Qed.

Lemma main_loop_run (bs : list Batch) (w : World) :
  main_loop bs w = (Ok tt, run (flat_map batch_events bs) w).
Proof.
  unfold main_loop. revert w.
  induction bs as [| b bs IH]; intros w; [reflexivity |].
  simpl. unfold bind at 1. rewrite loop_turn_run, IH, run_app. reflexivity.
Qed.

(** ** The translation as a function of the input *)

(** One event, field by field. *)
Lemma handle_fields (e : InputEvent) (w : World) :
  is_touching (tablet (exec (handle_event e) w)) =
    (if is_touch_key e then value e =? 1 else is_touching (tablet w)) /\
  pressed_button_1 (tablet (exec (handle_event e) w)) = pressed_button_1 (tablet w) /\
  pressed_button_2 (tablet (exec (handle_event e) w)) = pressed_button_2 (tablet w) /\
  is_away (tablet (exec (handle_event e) w)) =
    (if forwarded e then false else is_away (tablet w)) /\
  uinput (exec (handle_event e) w) =
    uinput w ++ translate [e] (is_touching (tablet w))
                  (pressed_button_1 (tablet w)) (pressed_button_2 (tablet w)).
Proof.
  unfold exec.
  destruct (event_cases e) as [H | H | H | H | H | H].
  - rewrite handle_pressure by exact H.
    cbn [translate]; unfold is_touch_key, is_axis, forwarded, matches; simpl;
      rewrite H; simpl.
    repeat split.
  - rewrite handle_x by exact H.
    cbn [translate]; unfold is_touch_key, is_axis, forwarded, matches; simpl;
      rewrite H; simpl.
    repeat split.
  - rewrite handle_y by exact H.
    cbn [translate]; unfold is_touch_key, is_axis, forwarded, matches; simpl;
      rewrite H; simpl.
    repeat split.
  - rewrite handle_touch by exact H.
    cbn [translate]; unfold is_touch_key, is_axis, forwarded, matches; simpl;
      rewrite H; simpl.
    repeat split.
  - rewrite handle_sync by exact H.
    cbn [translate]; unfold is_touch_key, is_axis, forwarded, matches; simpl;
      rewrite H; simpl.
    rewrite app_nil_r. repeat split.
  - rewrite handle_unknown by exact H.
    destruct (supported_false e H) as (Hp & Hx & Hy & Ht & Hs).
    cbn [translate]; unfold is_touch_key, is_axis, forwarded; simpl.
    rewrite Hp, Hx, Hy, Ht; simpl. rewrite app_nil_r. repeat split.
Qed.

(** The loop body prints the event first, which touches neither the
    tablet fields nor the device. *)
Lemma step_fields (e : InputEvent) (w : World) :
  is_touching (tablet (step e w)) =
    (if is_touch_key e then value e =? 1 else is_touching (tablet w)) /\
  pressed_button_1 (tablet (step e w)) = pressed_button_1 (tablet w) /\
  pressed_button_2 (tablet (step e w)) = pressed_button_2 (tablet w) /\
  is_away (tablet (step e w)) =
    (if forwarded e then false else is_away (tablet w)) /\
  uinput (step e w) =
    uinput w ++ translate [e] (is_touching (tablet w))
                  (pressed_button_1 (tablet w)) (pressed_button_2 (tablet w)).
Proof.
  unfold step, exec, trace_and_handle, bind, print_event.
  change (print (EventTrace e) w) with (Ok tt, exec (print (EventTrace e)) w).
  cbv iota. apply (handle_fields e (exec (print (EventTrace e)) w)).
Qed.

(** A run, field by field: the monadic loop against [translate] and
    [touch_after]. *)
Lemma run_fields (es : list InputEvent) (w : World) :
  is_touching (tablet (run es w)) = touch_after es (is_touching (tablet w)) /\
  pressed_button_1 (tablet (run es w)) = pressed_button_1 (tablet w) /\
  pressed_button_2 (tablet (run es w)) = pressed_button_2 (tablet w) /\
  is_away (tablet (run es w)) =
    (if existsb forwarded es then false else is_away (tablet w)) /\
  uinput (run es w) =
    uinput w ++ translate es (is_touching (tablet w))
                  (pressed_button_1 (tablet w)) (pressed_button_2 (tablet w)).
Proof.
  revert w. induction es as [| e es IH]; intros w.
  - simpl. rewrite app_nil_r. repeat split.
  - destruct (step_fields e w) as (Ht & H1 & H2 & Ha & Hu).
    destruct (IH (step e w)) as (IHt & IH1 & IH2 & IHa & IHu).
    change (run (e :: es) w) with (run es (step e w)).
    rewrite IHt, IH1, IH2, IHa, IHu, Ht, H1, H2, Ha, Hu.
    repeat split.
    + cbn [existsb]. destruct (forwarded e); simpl; [ | reflexivity ].
      destruct (existsb forwarded es); reflexivity.
    + rewrite <- app_assoc. f_equal.
      cbn [translate]. unfold is_axis, is_touch_key.
      destruct (event_cases e) as [H | H | H | H | H | H];
        try (unfold matches; rewrite H; simpl; reflexivity).
      destruct (supported_false e H) as (Hp & Hx & Hy & Hk & Hs).
      rewrite Hp, Hx, Hy, Hk. reflexivity.
Qed.

(** [translate] on a touch-key event, and on an unknown one. *)
Lemma translate_touch (v s u : Z) (es : list InputEvent) (touching b1 b2 : bool) :
  translate (mkEvent EV_KEY.BTN_LEFT v s u :: es) touching b1 b2 =
  present_burst (v =? 1) b1 b2 :: translate es (v =? 1) b1 b2.
Proof. reflexivity. Qed.

Lemma translate_unknown (e : InputEvent) (es : list InputEvent) (touching b1 b2 : bool) :
  supported e = false ->
  translate (e :: es) touching b1 b2 = translate es touching b1 b2.
Proof.
  intros H. destruct (supported_false e H) as (Hp & Hx & Hy & Ht & _).
  cbn [translate]. unfold is_axis, is_touch_key. rewrite Hp, Hx, Hy, Ht.
  reflexivity.
Qed.

Lemma translate_snapshots (es : list InputEvent) (touching b1 b2 : bool) :
  List.length (filter is_snapshot (translate es touching b1 b2)) =
  List.length (filter is_touch_key es).
Proof.
  revert touching. induction es as [| e es IH]; intros touching; [reflexivity |].
  cbn [translate filter]. unfold is_axis, is_touch_key in *.
  destruct (event_cases e) as [H | H | H | H | H | H];
    try (unfold matches; rewrite H; simpl; rewrite IH; reflexivity).
  destruct (supported_false e H) as (Hp & Hx & Hy & Ht & Hs).
  rewrite Hp, Hx, Hy, Ht. simpl. apply IH.
Qed.

Lemma translate_proximity (es : list InputEvent) (touching b1 b2 : bool) :
  Forall (fun evs => proximity evs <> Some 0)
         (translate es touching b1 b2).
Proof.
  revert touching. induction es as [| e es IH]; intros touching; [constructor |].
  cbn [translate]. unfold is_axis, is_touch_key.
  destruct (event_cases e) as [H | H | H | H | H | H];
    try (unfold matches; rewrite H; simpl;
         first [ apply IH | constructor; [ discriminate | apply IH ] ]).
  destruct (supported_false e H) as (Hp & Hx & Hy & Ht & Hs).
  rewrite Hp, Hx, Hy, Ht. simpl. apply IH.
Qed.

(** ** Reachable worlds, exceptions, proximity *)

(** What a run writes and the tablet fields it leaves do not depend on
    what was printed before. *)
Lemma run_same_output (es : list InputEvent) (a b : World) :
  uinput a = uinput b -> tablet a = tablet b ->
  clock a = clock b -> reads a = reads b ->
  uinput (run es a) = uinput (run es b) /\ tablet (run es a) = tablet (run es b).
Proof.
  revert a b. induction es as [| e es IH]; intros a b H1 H2 H3 H4;
    [ split; assumption | ].
  change (run (e :: es) a) with (run es (step e a)).
  change (run (e :: es) b) with (run es (step e b)).
  destruct a as [ta ua oa ca ra], b as [tb ub ob cb rb]; simpl in *; subst.
  unfold step, exec, trace_and_handle, bind, print_event, print; simpl.
  destruct (event_cases e) as [H | H | H | H | H | H].
  - rewrite !(handle_pressure e _ H). apply IH; reflexivity.
  - rewrite !(handle_x e _ H). apply IH; reflexivity.
  - rewrite !(handle_y e _ H). apply IH; reflexivity.
  - rewrite !(handle_touch e _ H). apply IH; reflexivity.
  - rewrite !(handle_sync e _ H). apply IH; reflexivity.
  - rewrite !(handle_unknown e _ H). apply IH; reflexivity.
Qed.

Lemma initial_reachable (clk : nat -> Z) : Reachable (initial clk).
Proof. apply reach_reset. Qed.

Lemma run_reachable (es : list InputEvent) (w : World) :
  Reachable w -> Reachable (run es w).
Proof.
  revert w. induction es as [| e es IH]; intros w Hw; [exact Hw |].
  apply (IH (step e w)).
  unfold step, exec, trace_and_handle, bind, print_event.
  change (print (EventTrace e) w) with (Ok tt, exec (print (EventTrace e)) w).
  cbv iota. apply (reach_handle e), reach_print, Hw.
Qed.

(** Every world the main loop goes through is reachable. *)
Lemma main_loop_reachable (bs : list Batch) (w : World) :
  Reachable w -> Reachable (exec (main_loop bs) w).
Proof.
  intros Hw. unfold exec. rewrite main_loop_run. apply run_reachable, Hw.
Qed.

Lemma reset_state_away_not_touching (w : World) :
  away_not_touching (tablet (exec reset_state w)).
Proof. intros _. reflexivity. Qed.

Lemma handle_event_away_not_touching (e : InputEvent) (w : World) :
  away_not_touching (tablet w) ->
  away_not_touching (tablet (exec (handle_event e) w)).
Proof.
  unfold away_not_touching. intros Hw.
  destruct (handle_fields e w) as (Ht & _ & _ & Ha & _).
  rewrite Ht, Ha. unfold forwarded, is_touch_key; simpl.
  destruct (matches e EV_KEY.BTN_LEFT).
  - rewrite !orb_true_r. discriminate.
  - destruct (_ || _); [ discriminate | exact Hw ].
Qed.

(** The [except] clauses of [main] on each kind of exception. *)
Lemma main_except_OSError (path : string) (n : option Z) (m : string) (w : World) :
  main_except path (OSError n m) w =
  (if errno_is (OSError n m) EACCES then
     print (Text ("Insufficient permissions to access " ++ path)%string)
   else if errno_is (OSError n m) ENOENT then
     print (Text ("Device " ++ path ++ " does not exist")%string)
   else raise (OSError n m)) w.
Proof. reflexivity. Qed.

Lemma main_except_KeyboardInterrupt (path : string) (w : World) :
  main_except path KeyboardInterrupt w = (Ok tt, w).
Proof. reflexivity. Qed.

(** Every snapshot burst [translate] produces reports proximity 1. *)
Lemma translate_snapshot_proximity (es : list InputEvent) (touching b1 b2 : bool) :
  Forall (fun evs => is_snapshot evs = true -> proximity evs = Some 1)
         (translate es touching b1 b2).
Proof.
  revert touching. induction es as [| e es IH]; intros touching; [constructor |].
  cbn [translate]. unfold is_axis, is_touch_key.
  destruct (event_cases e) as [H | H | H | H | H | H];
    try (unfold matches; rewrite H; simpl;
         first [ apply IH
               | constructor; [ first [ discriminate | reflexivity ] | apply IH ] ]).
  destruct (supported_false e H) as (Hp & Hx & Hy & Ht & Hs).
  rewrite Hp, Hx, Hy, Ht. simpl. apply IH.
Qed.

(** * The claims *)

(** C1.  [send_state_no_pos] returns normally and hands to the virtual
    device one list of five events, in this order: BTN_TOUCH with the
    value of [is_touching], BTN_TOOL_PEN with the value of
    [not is_away], BTN_STYLUS with [pressed_button_1], BTN_STYLUS2 with
    [pressed_button_2], then SYN_REPORT; the fields are those the
    object has when the list is written: [is_away] is the argument of
    the call (false by default), the touch and button fields are those
    the object had before the call.  From the initial state
    the batch [BTN_LEFT=1, SYN_REPORT] makes the program write exactly
    the burst [touch=1, proximity=1, stylus1=0, stylus2=0, sync]. *)
Theorem send_state_no_pos_burst :
  forall (a : bool) (w : World),
    let w' := exec (send_state_no_pos a) w in
    result (send_state_no_pos a) w = Ok tt /\
    uinput w' =
      uinput w ++
      [[ mk_InputEvent EV_KEY.BTN_TOUCH (int_of_bool (is_touching (tablet w')));
         mk_InputEvent EV_KEY.BTN_TOOL_PEN (int_of_bool (negb (is_away (tablet w'))));
         mk_InputEvent EV_KEY.BTN_STYLUS (int_of_bool (pressed_button_1 (tablet w')));
         mk_InputEvent EV_KEY.BTN_STYLUS2 (int_of_bool (pressed_button_2 (tablet w')));
         mk_InputEvent EV_SYN.SYN_REPORT 0 ]] /\
    is_away (tablet w') = a /\
    is_touching (tablet w') = is_touching (tablet w) /\
    pressed_button_1 (tablet w') = pressed_button_1 (tablet w) /\
    pressed_button_2 (tablet w') = pressed_button_2 (tablet w) /\
    forall (clk : nat -> Z) (s1 u1 s2 u2 : Z),
      uinput (exec (main_loop
                      [mkBatch [ mkEvent EV_KEY.BTN_LEFT 1 s1 u1;
                                 mkEvent EV_SYN.SYN_REPORT 0 s2 u2 ] None])
                   (initial clk)) =
      [[ mk_InputEvent EV_KEY.BTN_TOUCH 1;
         mk_InputEvent EV_KEY.BTN_TOOL_PEN 1;
         mk_InputEvent EV_KEY.BTN_STYLUS 0;
         mk_InputEvent EV_KEY.BTN_STYLUS2 0;
         mk_InputEvent EV_SYN.SYN_REPORT 0 ]].
Proof.
  intros a w w'. subst w'. unfold exec, result.
  rewrite send_state_no_pos_run. cbn [fst snd tablet uinput].
  repeat split.
Qed.

(** C2, as the claim states it, fails.  A resync batch that reports the
    touch key released and the pen out of proximity leaves [is_away]
    false and makes the program write proximity 1; the same resync
    batch after two different histories leaves two different values of
    [is_touching]; and a resync batch with no touch-key event writes no
    snapshot burst at all. *)
Lemma resync_not_a_snapshot_load :
  (uinput (exec (main_loop
                   [mkBatch [] (Some [ mk_InputEvent EV_KEY.BTN_LEFT 0;
                                       mk_InputEvent EV_KEY.BTN_TOOL_PEN 0;
                                       mk_InputEvent EV_SYN.SYN_REPORT 0 ])])
                (initial (fun _ => 0))) =
     [[ mk_InputEvent EV_KEY.BTN_TOUCH 0;
        mk_InputEvent EV_KEY.BTN_TOOL_PEN 1;
        mk_InputEvent EV_KEY.BTN_STYLUS 0;
        mk_InputEvent EV_KEY.BTN_STYLUS2 0;
        mk_InputEvent EV_SYN.SYN_REPORT 0 ]] /\
   is_away (tablet (exec (main_loop
                   [mkBatch [] (Some [ mk_InputEvent EV_KEY.BTN_LEFT 0;
                                       mk_InputEvent EV_KEY.BTN_TOOL_PEN 0;
                                       mk_InputEvent EV_SYN.SYN_REPORT 0 ])])
                (initial (fun _ => 0)))) = false) /\
  (is_touching (tablet (exec (main_loop
                   [mkBatch [] (Some [mk_InputEvent EV_SYN.SYN_REPORT 0])])
                (initial (fun _ => 0)))) = false /\
   is_touching (tablet (exec (main_loop
                   [mkBatch [mk_InputEvent EV_KEY.BTN_LEFT 1]
                            (Some [mk_InputEvent EV_SYN.SYN_REPORT 0])])
                (initial (fun _ => 0)))) = true) /\
  uinput (exec (main_loop
                  [mkBatch [] (Some [mk_InputEvent EV_SYN.SYN_REPORT 0])])
               (initial (fun _ => 0))) = [].
Proof. repeat split. Qed.

(** C2, amended.  On overflow the loop hands the events of [l.sync()]
    to [handle_event] one by one, exactly as it does with ordinary
    events.  So after the resync [is_touching] is what the last
    touch-key event of the resync batch says, or what it was if there is
    none; the two button fields are what they were; [is_away] is false
    if the batch holds an axis or a touch-key event and what it was
    otherwise; one snapshot burst is written per touch-key event of the
    batch, and no write reports proximity 0. *)
Theorem resync_replays_batch :
  forall (b : Batch) (s : list InputEvent) (w : World),
    dropped b = Some s ->
    let w1 := run (events b) w in
    let w2 := exec (loop_turn b) w in
    loop_turn b w = for_each trace_and_handle (events b ++ s) w /\
    result (loop_turn b) w = Ok tt /\
    w2 = run s w1 /\
    is_touching (tablet w2) = touch_after s (is_touching (tablet w1)) /\
    pressed_button_1 (tablet w2) = pressed_button_1 (tablet w1) /\
    pressed_button_2 (tablet w2) = pressed_button_2 (tablet w1) /\
    is_away (tablet w2) =
      (if existsb forwarded s then false else is_away (tablet w1)) /\
    exists writes : list (list InputEvent),
      uinput w2 = uinput w1 ++ writes /\
      List.length (filter is_snapshot writes) = List.length (filter is_touch_key s) /\
      Forall (fun evs => proximity evs <> Some 0) writes.
Proof.
  intros b s w Hs w1 w2. subst w1 w2. unfold exec, result.
  rewrite loop_turn_run, for_each_run. unfold batch_events. rewrite Hs.
  rewrite run_app. cbn [fst snd].
  destruct (run_fields s (run (events b) w)) as (Ht & H1 & H2 & Ha & Hu).
  repeat split; try assumption.
  eexists. split; [ exact Hu | ].
  split; [ apply translate_snapshots | apply translate_proximity ].
Qed.

(** The amended C2 on the example of the claim: overflow at once, then
    a resync batch saying the touch key is released. *)
Lemma resync_replays_batch_witness :
  dropped (mkBatch [] (Some [mk_InputEvent EV_KEY.BTN_LEFT 0])) =
    Some [mk_InputEvent EV_KEY.BTN_LEFT 0] /\
  uinput (exec (loop_turn (mkBatch [] (Some [mk_InputEvent EV_KEY.BTN_LEFT 0])))
               (initial (fun _ => 0))) =
    [ present_burst false false false ] /\
  is_touching (tablet (exec (loop_turn (mkBatch [] (Some [mk_InputEvent EV_KEY.BTN_LEFT 0])))
               (initial (fun _ => 0)))) = false.
Proof.
  split; [ reflexivity | ].
  split; [ reflexivity | ].
  exact (proj1 (proj2 (proj2 (proj2
    (resync_replays_batch (mkBatch [] (Some [mk_InputEvent EV_KEY.BTN_LEFT 0]))
       (initial (fun _ => 0)) eq_refl))))).
Defined.

(** C3.  In every world reachable from [reset_state] by printing and by
    handling raw events, whatever they are and whether they come from
    [l.events()] or from [l.sync()], [is_away] true implies
    [is_touching] false. *)
Theorem reachable_away_not_touching :
  forall w : World,
    Reachable w ->
    is_away (tablet w) = true -> is_touching (tablet w) = false.
Proof.
  intros w Hw. change (away_not_touching (tablet w)).
  induction Hw as [w | l w Hw IH | e w Hw IH].
  - apply reset_state_away_not_touching.
  - exact IH.
  - apply handle_event_away_not_touching, IH.
Qed.

(** C3 at the world the main loop leaves after a frame that holds a
    sync marker only: [is_away] is still true there. *)
Lemma reachable_away_not_touching_witness :
  Reachable (exec (main_loop [mkBatch [mk_InputEvent EV_SYN.SYN_REPORT 0] None])
               (initial (fun _ => 0))) /\
  is_away (tablet (exec (main_loop [mkBatch [mk_InputEvent EV_SYN.SYN_REPORT 0] None])
               (initial (fun _ => 0)))) = true /\
  is_touching (tablet (exec (main_loop [mkBatch [mk_InputEvent EV_SYN.SYN_REPORT 0] None])
               (initial (fun _ => 0)))) = false.
Proof.
  split; [ apply main_loop_reachable, initial_reachable | ].
  split; [ reflexivity | ].
  apply (reachable_away_not_touching
           (w := exec (main_loop [mkBatch [mk_InputEvent EV_SYN.SYN_REPORT 0] None])
                   (initial (fun _ => 0)))).
  - apply main_loop_reachable, initial_reachable.
  - reflexivity.
Defined.

(** C4, as the claim states it, fails.  Right after [reset_state] an
    ABS_X event turns [is_away] from true to false, and [lastmodif]
    takes the next reading of the clock. *)
Lemma axis_event_changes_state :
  is_away (tablet (initial (fun n => Z.of_nat n))) = true /\
  is_away (tablet (exec (handle_event (mk_InputEvent EV_ABS.ABS_X 5))
                     (initial (fun n => Z.of_nat n)))) = false /\
  lastmodif (tablet (initial (fun n => Z.of_nat n))) = 0 /\
  lastmodif (tablet (exec (handle_event (mk_InputEvent EV_ABS.ABS_X 5))
                       (initial (fun n => Z.of_nat n)))) = 1.
Proof. repeat split. Qed.

(** C4, amended.  Handling an ABS_PRESSURE, ABS_X or ABS_Y event returns
    normally and forwards the value: it hands to the virtual device one
    list holding one event, with the code and the value of the raw
    event.  It leaves [is_touching], [pressed_button_1] and
    [pressed_button_2] as they were; it sets [is_away] to false and
    [lastmodif] to the time read during the call. *)
Theorem axis_event_frame :
  forall (e : InputEvent) (w : World),
    is_axis e = true ->
    let w' := exec (handle_event e) w in
    result (handle_event e) w = Ok tt /\
    is_touching (tablet w') = is_touching (tablet w) /\
    pressed_button_1 (tablet w') = pressed_button_1 (tablet w) /\
    pressed_button_2 (tablet w') = pressed_button_2 (tablet w) /\
    is_away (tablet w') = false /\
    lastmodif (tablet w') = clock w (reads w) /\
    uinput w' = uinput w ++ [[mk_InputEvent (code e) (value e)]].
Proof.
  intros e w Hax w'. subst w'. unfold result, exec.
  unfold is_axis in Hax.
  destruct (event_cases e) as [H | H | H | H | H | H].
  - rewrite (handle_pressure e w H), H. repeat split.
  - rewrite (handle_x e w H), H. repeat split.
  - rewrite (handle_y e w H), H. repeat split.
  - unfold matches in Hax. rewrite H in Hax. discriminate.
  - unfold matches in Hax. rewrite H in Hax. discriminate.
  - destruct (supported_false e H) as (Hp & Hx & Hy & _).
    rewrite Hp, Hx, Hy in Hax. discriminate.
Qed.

Lemma axis_event_frame_witness :
  is_axis (mk_InputEvent EV_ABS.ABS_Y 7) = true /\
  is_away (tablet (exec (handle_event (mk_InputEvent EV_ABS.ABS_Y 7))
                     (initial (fun n => Z.of_nat n)))) = false /\
  lastmodif (tablet (exec (handle_event (mk_InputEvent EV_ABS.ABS_Y 7))
                       (initial (fun n => Z.of_nat n)))) = 1 /\
  uinput (exec (handle_event (mk_InputEvent EV_ABS.ABS_Y 7))
            (initial (fun n => Z.of_nat n))) =
    [] ++ [[mk_InputEvent EV_ABS.ABS_Y 7]].
Proof.
  split; [ reflexivity | ].
  exact (proj2 (proj2 (proj2 (proj2
    (axis_event_frame (mk_InputEvent EV_ABS.ABS_Y 7)
       (initial (fun n => Z.of_nat n)) eq_refl))))).
Defined.

(** C5.  Each of [touch_press], [touch_release], [button_1_press],
    [button_1_release], [button_2_press], [button_2_release], called a
    second time right after itself, leaves the four booleans as the
    first call left them and writes one more burst, equal to the one
    the first call wrote.  So does [handle_event] on a BTN_LEFT event
    handled twice in a row, whatever its value; and on any raw event
    handled twice in a row the booleans after the second handling are
    those after the first, and the second handling writes what the
    first wrote. *)
Theorem repeated_transition_idempotent :
  Forall (fun m : M unit =>
            forall w : World,
              let w1 := exec m w in
              let w2 := exec m w1 in
              result m w = Ok tt /\ result m w1 = Ok tt /\
              flags (tablet w2) = flags (tablet w1) /\
              uinput w1 = uinput w ++ [state_burst (tablet w1)] /\
              uinput w2 = uinput w1 ++ [state_burst (tablet w1)])
         state_methods /\
  (forall (v s u : Z) (w : World),
     let e := mkEvent EV_KEY.BTN_LEFT v s u in
     let w1 := exec (handle_event e) w in
     let w2 := exec (handle_event e) w1 in
     is_touching (tablet w1) = (v =? 1) /\
     flags (tablet w2) = flags (tablet w1) /\
     uinput w1 = uinput w ++ [state_burst (tablet w1)] /\
     uinput w2 = uinput w1 ++ [state_burst (tablet w1)]) /\
  forall (e : InputEvent) (w : World),
    let w1 := exec (handle_event e) w in
    let w2 := exec (handle_event e) w1 in
    flags (tablet w2) = flags (tablet w1) /\
    exists writes : list (list InputEvent),
      uinput w1 = uinput w ++ writes /\
      uinput w2 = uinput w1 ++ writes.
Proof.
  split; [ | split ].
  - unfold state_methods. repeat constructor.
  - intros v s u w e w1 w2. subst w1 w2. unfold exec.
    rewrite !(handle_touch e _ eq_refl). repeat split.
  - intros e w w1 w2. subst w1 w2. unfold exec.
    destruct (event_cases e) as [H | H | H | H | H | H].
    + rewrite !(handle_pressure e _ H). split; [ reflexivity | ].
      eexists; split; reflexivity.
    + rewrite !(handle_x e _ H). split; [ reflexivity | ].
      eexists; split; reflexivity.
    + rewrite !(handle_y e _ H). split; [ reflexivity | ].
      eexists; split; reflexivity.
    + rewrite !(handle_touch e _ H). split; [ reflexivity | ].
      eexists; split; reflexivity.
    + rewrite !(handle_sync e _ H). split; [ reflexivity | ].
      exists []. cbn [snd]. rewrite app_nil_r. split; reflexivity.
    + rewrite !(handle_unknown e _ H). split; [ reflexivity | ].
      exists []. cbn [snd uinput]. rewrite app_nil_r. split; reflexivity.
Qed.

(** C6.  [change_pressure v], [move_x v] and [move_y v] hand to the
    virtual device one list holding one event, on ABS_PRESSURE, ABS_X
    and ABS_Y, whose value is [v] itself whatever [v] is, and no
    SYN_REPORT; [handle_event] does the same with the value of a raw
    event on one of these three codes.  From the initial state the
    batch [ABS_PRESSURE=1000] makes the program write [pressure=1000]
    and nothing else. *)
Theorem axis_passthrough_exact :
  (forall (v : Z) (w : World),
     uinput (exec (change_pressure v) w) =
       uinput w ++ [[mk_InputEvent EV_ABS.ABS_PRESSURE v]] /\
     uinput (exec (move_x v) w) = uinput w ++ [[mk_InputEvent EV_ABS.ABS_X v]] /\
     uinput (exec (move_y v) w) = uinput w ++ [[mk_InputEvent EV_ABS.ABS_Y v]]) /\
  (forall (v s u : Z) (w : World),
     handle_event (mkEvent EV_ABS.ABS_PRESSURE v s u) w = change_pressure v w /\
     handle_event (mkEvent EV_ABS.ABS_X v s u) w = move_x v w /\
     handle_event (mkEvent EV_ABS.ABS_Y v s u) w = move_y v w) /\
  (forall v : Z,
     has_sync [mk_InputEvent EV_ABS.ABS_PRESSURE v] = false /\
     has_sync [mk_InputEvent EV_ABS.ABS_X v] = false /\
     has_sync [mk_InputEvent EV_ABS.ABS_Y v] = false) /\
  forall (clk : nat -> Z) (s u : Z),
    uinput (exec (main_loop [mkBatch [mkEvent EV_ABS.ABS_PRESSURE 1000 s u] None])
                 (initial clk)) =
    [[mk_InputEvent EV_ABS.ABS_PRESSURE 1000]].
Proof.
  split; [ | split; [ | split ] ].
  - intros v w. repeat split.
  - intros v s u w. repeat split.
  - intros v. repeat split.
  - intros clk s u. reflexivity.
Qed.

(** C7.  A raw event whose code is none of ABS_PRESSURE, ABS_X, ABS_Y,
    BTN_LEFT and SYN_REPORT makes [handle_event] print two lines and
    return normally, with the tablet fields and the writes to the
    virtual device untouched.  A batch that holds such an event between
    two touch-key events goes through the loop without an exception
    and writes exactly two snapshot bursts, the one of the first touch
    event and then the one of the second. *)
Theorem unknown_event_dropped :
  forall u : InputEvent,
    supported u = false ->
    (forall w : World,
       handle_event u w =
       (Ok tt, mkWorld (tablet w) (uinput w)
                 (stdout w ++ [Text "Unkown event:"; EventTrace u])
                 (clock w) (reads w))) /\
    (forall (v1 v2 : Z) (w : World),
       let batch := mkBatch [ mk_InputEvent EV_KEY.BTN_LEFT v1; u;
                              mk_InputEvent EV_KEY.BTN_LEFT v2 ] None in
       result (main_loop [batch]) w = Ok tt /\
       uinput (exec (main_loop [batch]) w) =
         uinput w ++
         [ present_burst (v1 =? 1) (pressed_button_1 (tablet w))
             (pressed_button_2 (tablet w));
           present_burst (v2 =? 1) (pressed_button_1 (tablet w))
             (pressed_button_2 (tablet w)) ]) /\
    (forall (es1 es2 : list InputEvent) (w : World),
       uinput (run (es1 ++ u :: es2) w) = uinput (run (es1 ++ es2) w) /\
       tablet (run (es1 ++ u :: es2) w) = tablet (run (es1 ++ es2) w)).
Proof.
  intros u Hu. split; [ | split ].
  - intros w. rewrite (handle_unknown u w Hu), <- app_assoc. reflexivity.
  - intros v1 v2 w batch. subst batch. unfold result, exec.
    rewrite main_loop_run. cbn [fst snd flat_map batch_events events dropped app].
    destruct (run_fields [ mk_InputEvent EV_KEY.BTN_LEFT v1; u;
                           mk_InputEvent EV_KEY.BTN_LEFT v2 ] w)
      as (_ & _ & _ & _ & Hw).
    split; [ reflexivity | ]. rewrite Hw. f_equal.
    unfold mk_InputEvent.
    rewrite translate_touch. rewrite translate_unknown by exact Hu.
    rewrite translate_touch. reflexivity.
  - intros es1 es2 w. rewrite !run_app.
    change (run (u :: es2) (run es1 w)) with (run es2 (step u (run es1 w))).
    generalize (run es1 w) as w1. intros w1.
    apply run_same_output;
      unfold step, exec, trace_and_handle, bind, print_event, print; simpl;
      rewrite (handle_unknown u _ Hu); reflexivity.
Qed.

(** C7 on a BTN_TOOL_PEN event, a code the physical tablet may well
    send and the translator does not know. *)
Lemma unknown_event_dropped_witness :
  supported (mk_InputEvent EV_KEY.BTN_TOOL_PEN 1) = false /\
  uinput (exec (main_loop
                  [mkBatch [ mk_InputEvent EV_KEY.BTN_LEFT 1;
                             mk_InputEvent EV_KEY.BTN_TOOL_PEN 1;
                             mk_InputEvent EV_KEY.BTN_LEFT 0 ] None])
               (initial (fun _ => 0))) =
    [] ++ [ present_burst true false false; present_burst false false false ].
Proof.
  split; [ reflexivity | ].
  exact (proj2 (proj1 (proj2
    (unknown_event_dropped (mk_InputEvent EV_KEY.BTN_TOOL_PEN 1) eq_refl))
    1 0 (initial (fun _ => 0)))).
Defined.

(** C8 fails on the code for OS errors other than EACCES and ENOENT.
    The clause [except IOError] catches every OSError, and for an errno
    that is neither EACCES nor ENOENT it raises the exception again;
    the clause [except OSError], which would print it, is never
    entered.  So when the tablet is unplugged [main] ends with the
    exception and the message is not printed.  (A user interrupt,
    EACCES and ENOENT end [main] normally, the last two with their
    message.) *)
Theorem other_OSError_escapes_main :
  (forall (path : string) (n : option Z) (m : string) (w : World),
     errno_is (OSError n m) EACCES = false ->
     errno_is (OSError n m) ENOENT = false ->
     main_except path (OSError n m) w = (Raise (OSError n m), w)) /\
  result (main "/dev/input/event5" env_unplugged) (blank (fun _ => 0)) =
    Raise (OSError (Some ENODEV) "[Errno 19] No such device") /\
  existsb (fun l => match l with
                    | Text s => String.eqb s "[Errno 19] No such device"
                    | _ => false
                    end)
          (stdout (exec (main "/dev/input/event5" env_unplugged) (blank (fun _ => 0))))
    = false /\
  (forall (path : string) (m : string) (w : World),
     main_except path KeyboardInterrupt w = (Ok tt, w) /\
     main_except path (OSError (Some EACCES) m) w =
       print (Text ("Insufficient permissions to access " ++ path)%string) w /\
     main_except path (OSError (Some ENOENT) m) w =
       print (Text ("Device " ++ path ++ " does not exist")%string) w).
Proof.
  split; [ | split; [ | split ] ].
  - intros path n m w H1 H2. rewrite main_except_OSError, H1, H2. reflexivity.
  - reflexivity.
  - reflexivity.
  - intros path m w. repeat split.
Qed.

Lemma other_OSError_escapes_main_witness :
  errno_is (OSError (Some 16) "[Errno 16] Device or resource busy") EACCES = false /\
  errno_is (OSError (Some 16) "[Errno 16] Device or resource busy") ENOENT = false /\
  main_except "/dev/input/event5"
    (OSError (Some 16) "[Errno 16] Device or resource busy") (blank (fun _ => 0)) =
  (Raise (OSError (Some 16) "[Errno 16] Device or resource busy"), blank (fun _ => 0)).
Proof.
  split; [ reflexivity | ]. split; [ reflexivity | ].
  exact (proj1 other_OSError_escapes_main "/dev/input/event5" (Some 16)
           "[Errno 16] Device or resource busy" (blank (fun _ => 0)) eq_refl eq_refl).
Defined.

(** C9.  The device [__enter__] describes is one fixed value: named
    "Tablet alone", with the property INPUT_PROP_DIRECT and no other,
    with the keys BTN_TOOL_PEN, BTN_TOOL_RUBBER, BTN_TOUCH, BTN_STYLUS
    and BTN_STYLUS2, the axes ABS_X, ABS_Y and ABS_PRESSURE, and
    SYN_REPORT and SYN_DROPPED, and no other code; ABS_X and ABS_Y are
    given minimum 0, maximum 32767 and resolution 100, ABS_PRESSURE is
    given minimum 0 and maximum 8191 and no resolution.  [__enter__]
    returns it whenever creating the uinput device succeeds, and fails
    only with the exception of that creation. *)
Theorem Tablet_dev_capabilities :
  dev_name Tablet_dev = "Tablet alone" /\
  (forall p : InputProperty,
     has_property Tablet_dev p = true <-> p = INPUT_PROP_DIRECT) /\
  (forall c : EventCode,
     has_event Tablet_dev c = true <-> In c declared_codes) /\
  map fst (dev_evbits Tablet_dev) = declared_codes /\
  absinfo Tablet_dev EV_ABS.ABS_X =
    Some (mkAbsInfo (Some 0) (Some 32767) None None (Some 100) None) /\
  absinfo Tablet_dev EV_ABS.ABS_Y =
    Some (mkAbsInfo (Some 0) (Some 32767) None None (Some 100) None) /\
  absinfo Tablet_dev EV_ABS.ABS_PRESSURE =
    Some (mkAbsInfo (Some 0) (Some 8191) None None None None) /\
  option_map resolution (absinfo Tablet_dev EV_ABS.ABS_PRESSURE) = Some None /\
  (forall c : EventCode,
     absinfo Tablet_dev c <> None ->
     In c [EV_ABS.ABS_X; EV_ABS.ABS_Y; EV_ABS.ABS_PRESSURE]) /\
  forall (env : Env) (w : World),
    result (Tablet_enter env) w =
    match create_uinput_device env with
    | None => Ok Tablet_dev
    | Some x => Raise x
    end.
Proof.
  split; [ reflexivity | ].
  split.
  { intros [p]. unfold has_property, InputProperty_eqb, INPUT_PROP_DIRECT; simpl.
    rewrite orb_false_r. split.
    - intros H. apply Z.eqb_eq in H. congruence.
    - intros H. injection H as ->. reflexivity. }
  split.
  { intros c. unfold has_event. rewrite existsb_exists. split.
    - intros [[c' d] [Hin Heq]]. simpl in Heq.
      destruct (EventCode_eqb_spec c' c) as [<- | ]; [ | discriminate ].
      apply (in_map fst) in Hin. exact Hin.
    - intros Hin. change declared_codes with (map fst (dev_evbits Tablet_dev)) in Hin.
      apply in_map_iff in Hin. destruct Hin as [[c' d] [Hc Hin]].
      exists (c', d). split; [ exact Hin | ]. simpl in *. subst c'.
      apply EventCode_eqb_refl. }
  split; [ reflexivity | ].
  split; [ reflexivity | ].
  split; [ reflexivity | ].
  split; [ reflexivity | ].
  split; [ reflexivity | ].
  split.
  { intros c. unfold absinfo.
    destruct (find _ _) as [[c' d] |] eqn:Hf; [ | congruence ].
    intros Hd. apply find_some in Hf. destruct Hf as [Hin Heq]. simpl in Heq.
    destruct (EventCode_eqb_spec c' c) as [<- | ]; [ | discriminate ].
    simpl in Hin.
    repeat (destruct Hin as [Hin | Hin];
            [ injection Hin as <- <-; first [ congruence | simpl; tauto ] | ]).
    contradiction. }
  intros env w. unfold result, Tablet_enter, bind, outcome_of.
  destruct (create_uinput_device env); reflexivity.
Qed.

(** C9 on ABS_X, one of the three codes that carry axis data. *)
Lemma Tablet_dev_capabilities_witness :
  absinfo Tablet_dev EV_ABS.ABS_X <> None /\
  In EV_ABS.ABS_X [EV_ABS.ABS_X; EV_ABS.ABS_Y; EV_ABS.ABS_PRESSURE].
Proof.
  assert (H : absinfo Tablet_dev EV_ABS.ABS_X <> None) by discriminate.
  split; [ exact H | ].
  destruct Tablet_dev_capabilities as (_ & _ & _ & _ & _ & _ & _ & _ & Habs & _).
  exact (Habs EV_ABS.ABS_X H).
Defined.

(** C10.  Each of the six state methods and each of [move_x], [move_y]
    and [change_pressure] leaves [is_away] false; [handle_event] leaves
    it false on an axis or touch-key event and as it was on any other;
    [reset_state] alone makes it true.  So after the main loop has
    handled its batches [is_away] is false if an axis or touch-key event
    was among them and as before otherwise, it is false after the loop
    whenever it was false before, and every snapshot burst the loop
    writes reports proximity 1. *)
Theorem away_cleared_for_good :
  Forall (fun m : M unit => forall w : World, is_away (tablet (exec m w)) = false)
         state_methods /\
  (forall (v : Z) (w : World),
     is_away (tablet (exec (move_x v) w)) = false /\
     is_away (tablet (exec (move_y v) w)) = false /\
     is_away (tablet (exec (change_pressure v) w)) = false) /\
  (forall (e : InputEvent) (w : World),
     is_away (tablet (exec (handle_event e) w)) =
     (if forwarded e then false else is_away (tablet w))) /\
  (forall w : World, is_away (tablet (exec reset_state w)) = true) /\
  (forall (bs : list Batch) (w : World),
     is_away (tablet (exec (main_loop bs) w)) =
     (if existsb forwarded (flat_map batch_events bs) then false
      else is_away (tablet w))) /\
  (forall (bs : list Batch) (w : World),
     is_away (tablet w) = false ->
     is_away (tablet (exec (main_loop bs) w)) = false) /\
  forall (bs : list Batch) (w : World),
    exists writes : list (list InputEvent),
      uinput (exec (main_loop bs) w) = uinput w ++ writes /\
      Forall (fun evs => is_snapshot evs = true -> proximity evs = Some 1) writes.
Proof.
  split; [ unfold state_methods; repeat constructor | ].
  split; [ intros v w; repeat split | ].
  split; [ intros e w; apply (handle_fields e w) | ].
  split; [ reflexivity | ].
  assert (Haway : forall (bs : list Batch) (w : World),
             is_away (tablet (exec (main_loop bs) w)) =
             (if existsb forwarded (flat_map batch_events bs) then false
              else is_away (tablet w))).
  { intros bs w. unfold exec. rewrite main_loop_run. cbn [snd].
    apply (run_fields (flat_map batch_events bs) w). }
  split; [ exact Haway | ].
  split.
  - intros bs w Hw. rewrite Haway, Hw.
    destruct (existsb _ _); reflexivity.
  - intros bs w. unfold exec. rewrite main_loop_run. cbn [snd].
    destruct (run_fields (flat_map batch_events bs) w) as (_ & _ & _ & _ & Hu).
    eexists. split; [ exact Hu | apply translate_snapshot_proximity ].
Qed.

(** C10 on a run that starts with the pen pressed and goes on with an
    overflow whose resync batch says the pen has left the tablet. *)
Lemma away_cleared_for_good_witness :
  is_away (tablet (exec touch_press (initial (fun _ => 0)))) = false /\
  is_away (tablet (exec (main_loop
                           [mkBatch [] (Some [ mk_InputEvent EV_KEY.BTN_TOOL_PEN 0;
                                               mk_InputEvent EV_SYN.SYN_REPORT 0 ])])
                     (exec touch_press (initial (fun _ => 0))))) = false.
Proof.
  split; [ reflexivity | ].
  destruct away_cleared_for_good as (_ & _ & _ & _ & _ & Hstay & _).
  apply Hstay. reflexivity.
Defined.

(** * Further properties *)

(** ** The clock, the output and the exceptions of one event *)

(** Rewrites [handle_event e _] by the branch [e] takes and computes
    the tests on its code. *)
Ltac branch_of e H :=
  first
    [ rewrite !(handle_pressure e _ H)
    | rewrite !(handle_x e _ H)
    | rewrite !(handle_y e _ H)
    | rewrite !(handle_touch e _ H)
    | rewrite !(handle_sync e _ H) ];
  cbn [translate transcript];
  unfold is_touch_key, is_axis, forwarded, matches; simpl;
  rewrite ?H; simpl.

Lemma handle_clock (e : InputEvent) (w : World) :
  clock (exec (handle_event e) w) = clock w /\
  reads (exec (handle_event e) w) =
    (if forwarded e then S (reads w) else reads w) /\
  lastmodif (tablet (exec (handle_event e) w)) =
    (if forwarded e then clock w (reads w) else lastmodif (tablet w)).
Proof.
  unfold exec.
  destruct (event_cases e) as [H | H | H | H | H | H];
    try (branch_of e H; repeat split).
  rewrite (handle_unknown e w H).
  destruct (supported_false e H) as (Hp & Hx & Hy & Ht & _).
  unfold forwarded; simpl. rewrite Hp, Hx, Hy, Ht. repeat split.
Qed.

Lemma step_clock (e : InputEvent) (w : World) :
  clock (step e w) = clock w /\
  reads (step e w) = (if forwarded e then S (reads w) else reads w) /\
  lastmodif (tablet (step e w)) =
    (if forwarded e then clock w (reads w) else lastmodif (tablet w)).
Proof.
  unfold step, exec, trace_and_handle, bind, print_event.
  change (print (EventTrace e) w) with (Ok tt, exec (print (EventTrace e)) w).
  cbv iota. apply (handle_clock e (exec (print (EventTrace e)) w)).
Qed.

Lemma step_stdout (e : InputEvent) (w : World) :
  stdout (step e w) = stdout w ++ transcript [e].
Proof.
  unfold step, exec, trace_and_handle, bind, print_event, print. cbn [fst snd].
  destruct (event_cases e) as [H | H | H | H | H | H];
    try (branch_of e H; rewrite ?app_nil_r; try rewrite <- app_assoc; reflexivity).
  rewrite (handle_unknown e _ H).
  destruct (supported_false e H) as (Hp & Hx & Hy & Ht & Hs).
  cbn [transcript]. unfold is_axis, is_touch_key. rewrite Hp, Hx, Hy, Ht, Hs.
  cbn [snd stdout orb]. rewrite app_nil_r, <- !app_assoc. reflexivity.
Qed.

Lemma transcript_app (l1 l2 : list InputEvent) :
  transcript (l1 ++ l2) = transcript l1 ++ transcript l2.
Proof.
  induction l1 as [| e l1 IH]; [ reflexivity | ].
  cbn [transcript app]. rewrite IH, app_comm_cons, app_assoc. reflexivity.
Qed.

Lemma run_cons (e : InputEvent) (es : list InputEvent) (w : World) :
  run (e :: es) w = run es (step e w).
Proof. reflexivity. Qed.

Lemma run_stdout (es : list InputEvent) (w : World) :
  stdout (run es w) = stdout w ++ transcript es.
Proof.
  revert w. induction es as [| e es IH]; intros w.
  - simpl. rewrite app_nil_r. reflexivity.
  - rewrite run_cons, IH, step_stdout, <- app_assoc.
    rewrite <- transcript_app. reflexivity.
Qed.

(** ** [main] from end to end *)

(** [main] always reaches its [except] clauses, with the first
    exception of the run. *)
Lemma main_reaches_handler (path : string) (env : Env) (w : World) :
  main path env w = main_except path (first_exception env) (before_handler env w).
Proof.
  unfold main, try_except, bind at 1, Tablet_enter, bind at 1, outcome_of,
    first_exception, before_handler.
  destruct (create_uinput_device env) as [x |]; [ reflexivity | ].
  unfold raise, ret, bind at 1, bind at 1.
  change (print ?l w) with (Ok tt, exec (print l) w). cbv iota.
  set (w0 := exec (print _) w).
  change (reset_state w0) with (Ok tt, exec reset_state w0). cbv iota beta.
  unfold bind at 1. cbv iota beta.
  change (exec (print ?l ;; reset_state) w) with (exec reset_state (exec (print l) w)).
  fold w0. set (w1 := exec reset_state w0).
  unfold bind at 1.
  destruct (open_path env) as [x |]; [ reflexivity | ].
  cbv beta iota. unfold bind at 1.
  change (print CapabilityReport w1) with (Ok tt, exec (print CapabilityReport) w1).
  cbv iota beta. unfold bind at 1.
  set (w2 := exec (print CapabilityReport) w1).
  change (print (Text banner) w2) with (Ok tt, exec (print (Text banner)) w2).
  cbv iota beta. unfold bind at 1. rewrite main_loop_run. reflexivity.
Qed.

Lemma main_except_result (path : string) (x : Exn) (w : World) :
  result (main_except path x) w = if swallowed x then Ok tt else Raise x.
Proof.
  unfold result, swallowed.
  destruct x as [| [n |] m | name]; try reflexivity.
  rewrite main_except_OSError. cbn [isinstance_KeyboardInterrupt orb].
  destruct (errno_is (OSError (Some n) m) EACCES); [ reflexivity | ].
  destruct (errno_is (OSError (Some n) m) ENOENT); reflexivity.
Qed.

(** The [except] clauses only print. *)
Lemma main_except_frame (path : string) (x : Exn) (w : World) :
  tablet (exec (main_except path x) w) = tablet w /\
  uinput (exec (main_except path x) w) = uinput w /\
  reads (exec (main_except path x) w) = reads w.
Proof.
  unfold exec.
  destruct x as [| [n |] m | name]; try (repeat split; fail).
  rewrite main_except_OSError.
  destruct (errno_is (OSError (Some n) m) EACCES); [ repeat split | ].
  destruct (errno_is (OSError (Some n) m) ENOENT); repeat split.
Qed.

Lemma main_result (path : string) (env : Env) (w : World) :
  result (main path env) w =
  (if swallowed (first_exception env) then Ok tt
   else Raise (first_exception env)).
Proof.
  unfold result. rewrite main_reaches_handler. apply main_except_result.
Qed.

(** X1.  [main] never returns without an exception having ended it: it
    returns normally exactly when the first exception of the run (from
    creating the uinput device, from opening the path, or the one that
    stops the loop) is a KeyboardInterrupt or an OSError whose errno is
    EACCES or ENOENT, and in every other case that same exception
    leaves [main].  The batches read before it never change that. *)
Theorem main_ends_by_first_exception :
  forall (path : string) (env : Env) (w : World),
    result (main path env) w =
    (if swallowed (first_exception env) then Ok tt
     else Raise (first_exception env)).
Proof. intros path env w. apply main_result. Qed.

(** X2.  What [main] writes to the virtual device is a function of the
    raw events alone: when the uinput device is created and the path
    opened, the writes are [translate] of all the events of all the
    batches, ordinary and resync ones in the order read, from cleared
    touch and button fields, whatever the path, the clock, the world
    before and the exception that stops the loop; when either step
    fails, nothing is written. *)
Theorem main_writes :
  forall (path : string) (env : Env) (w : World),
    uinput (exec (main path env) w) =
    uinput w ++
    match create_uinput_device env, open_path env with
    | None, None => translate (flat_map batch_events (batches env)) false false false
    | _, _ => []
    end.
Proof.
  intros path env w. unfold exec. rewrite main_reaches_handler.
  destruct (main_except_frame path (first_exception env) (before_handler env w))
    as (_ & Hu & _).
  unfold exec in Hu. rewrite Hu. unfold before_handler.
  destruct (create_uinput_device env) as [x |]; [ rewrite app_nil_r; reflexivity | ].
  destruct (open_path env) as [x |]; [ rewrite app_nil_r; reflexivity | ].
  cbv zeta.
  match goal with
  | |- uinput (run ?es ?w0) = _ =>
      destruct (run_fields es w0) as (_ & _ & _ & _ & Hrun); rewrite Hrun
  end.
  reflexivity.
Qed.

(** X3.  When creating the uinput device fails for want of permission,
    [main] returns normally having printed one line only, which names
    the path of the physical device given on the command line; the
    tablet fields are not reset, nothing is written and no "New device"
    line is printed. *)
Theorem uinput_permission_blames_path :
  forall (path m : string) (env : Env) (w : World),
    create_uinput_device env = Some (OSError (Some EACCES) m) ->
    main path env w =
    (Ok tt,
     mkWorld (tablet w) (uinput w)
       (stdout w ++ [Text ("Insufficient permissions to access " ++ path)%string])
       (clock w) (reads w)).
Proof.
  intros path m env w Hc. rewrite main_reaches_handler.
  unfold first_exception, before_handler. rewrite Hc. reflexivity.
Qed.

Lemma uinput_permission_blames_path_witness :
  main "/dev/input/event5"
    (mkEnv "" "" (Some (OSError (Some EACCES) "[Errno 13] Permission denied"))
       None [] KeyboardInterrupt)
    (blank (fun _ => 0)) =
  (Ok tt,
   mkWorld (tablet (blank (fun _ => 0))) []
     [Text "Insufficient permissions to access /dev/input/event5"]
     (fun _ => 0) 0%nat).
Proof.
  exact (uinput_permission_blames_path "/dev/input/event5"
           (m := "[Errno 13] Permission denied")
           (mkEnv "" "" (Some (OSError (Some EACCES) "[Errno 13] Permission denied"))
              None [] KeyboardInterrupt)
           (blank (fun _ => 0)) eq_refl).
Defined.

(** ** The command line *)

(** X4.  Started with any number of arguments other than one, the
    script prints the three usage lines, the first naming the program
    as it was called, and ends with exit status 1 without creating a
    device, resetting the tablet, reading the clock or writing an
    event.  Started with one argument it ends with status 0 when that
    run's first exception is one [main] swallows, and on that exception
    otherwise; status 1 is never the outcome of [sys.exit] then. *)
Theorem script_usage :
  forall (argv0 : string) (rest : list string) (env : Env) (w : World),
    (List.length rest <> 1%nat ->
     script (argv0 :: rest) env w =
     (Exited 1,
      mkWorld (tablet w) (uinput w)
        (stdout w ++
         [ Text ("Usage: sudo " ++ argv0 ++ " /dev/input/eventX")%string;
           Text " $ sudo evtest";
           Text "can help you to know which file to use." ])
        (clock w) (reads w))) /\
    (forall path : string,
       fst (script [argv0; path] env w) =
       (if swallowed (first_exception env) then Exited 0
        else Uncaught (first_exception env)) /\
       snd (script [argv0; path] env w) = exec (main path env) w).
Proof.
  intros argv0 rest env w. split.
  - intros Hlen. unfold script. cbn [List.length nth_error].
    destruct (Nat.eqb_spec (S (List.length rest)) 2) as [Heq | _]; [ lia | ].
    cbn [negb]. unfold exec, usage. cbn. rewrite <- !app_assoc. reflexivity.
  - intros path. unfold script, main_args. cbn [List.length Nat.eqb negb nth_error].
    pose proof (main_result path env w) as Hres.
    unfold result, exec in *. destruct (main path env w) as [[[] | x] w'].
    + cbn [fst snd] in *. destruct (swallowed (first_exception env));
        [ split; reflexivity | discriminate ].
    + cbn [fst snd] in *. destruct (swallowed (first_exception env));
        [ discriminate | ]. injection Hres as ->. split; reflexivity.
Qed.

Lemma script_usage_witness :
  List.length (@nil string) <> 1%nat /\
  fst (script ["veikk.py"] (mkEnv "" "" None None [] KeyboardInterrupt)
         (blank (fun _ => 0))) = Exited 1.
Proof.
  assert (H : List.length (@nil string) <> 1%nat) by discriminate.
  split; [ exact H | ].
  exact (f_equal fst
           (proj1 (script_usage "veikk.py" []
                     (mkEnv "" "" None None [] KeyboardInterrupt)
                     (blank (fun _ => 0))) H)).
Defined.

(** ** What a run prints, and when it reads the clock *)

(** X5.  What the loop prints is a function of the raw events alone,
    whatever the tablet fields and the clock: every event is traced
    before it is handled, a touch-key event then gives the line
    "Away: False, Touching: ..." with its own value, and an event of
    an unknown code gives "Unkown event:" and is traced a second time.
    So the events traced in the output are the events read, in order,
    each unknown one twice. *)
Theorem run_prints_transcript :
  forall (bs : list Batch) (w : World),
    stdout (exec (main_loop bs) w) =
      stdout w ++ transcript (flat_map batch_events bs) /\
    traced (stdout (exec (main_loop bs) w)) =
      traced (stdout w) ++
      flat_map (fun e => if supported e then [e] else [e; e])
               (flat_map batch_events bs).
Proof.
  intros bs w. unfold exec. rewrite main_loop_run. cbn [snd].
  rewrite run_stdout. split; [ reflexivity | ].
  unfold traced. rewrite flat_map_app. f_equal.
  induction (flat_map batch_events bs) as [| e es IH]; [ reflexivity | ].
  cbn [transcript flat_map app]. rewrite flat_map_app, IH.
  unfold is_axis, is_touch_key, supported, supported_codes.
  destruct (event_cases e) as [H | H | H | H | H | H];
    try (unfold matches; rewrite H; reflexivity).
  destruct (supported_false e H) as (Hp & Hx & Hy & Ht & Hs).
  cbn [existsb]. rewrite Hp, Hx, Hy, Ht, Hs. reflexivity.
Qed.

(** X6.  In every world reachable from [reset_state] the clock has been
    read at least once and [lastmodif] is the last reading taken. *)
Theorem lastmodif_is_last_reading :
  forall w : World,
    Reachable w ->
    exists n : nat, reads w = S n /\ lastmodif (tablet w) = clock w n.
Proof.
  intros w Hw. induction Hw as [w | l w Hw IH | e w Hw IH].
  - exists (reads w). split; reflexivity.
  - exact IH.
  - destruct IH as [n [Hr Hl]].
    destruct (handle_clock e w) as (Hc & Hr' & Hl').
    rewrite Hc, Hr', Hl'. destruct (forwarded e).
    + exists (reads w). split; reflexivity.
    + exists n. split; assumption.
Qed.

Lemma lastmodif_is_last_reading_witness :
  exists n : nat,
    reads (exec (handle_event (mk_InputEvent EV_ABS.ABS_X 3))
             (initial (fun k => Z.of_nat k))) = S n /\
    lastmodif (tablet (exec (handle_event (mk_InputEvent EV_ABS.ABS_X 3))
                         (initial (fun k => Z.of_nat k)))) =
    clock (exec (handle_event (mk_InputEvent EV_ABS.ABS_X 3))
             (initial (fun k => Z.of_nat k))) n.
Proof.
  exact (lastmodif_is_last_reading
           (reach_handle (mk_InputEvent EV_ABS.ABS_X 3)
              (initial_reachable (fun k => Z.of_nat k)))).
Defined.

(** X7.  The loop reads the clock once for every axis or touch-key
    event and never for a sync marker or an unknown code; after the
    loop [lastmodif] is the reading taken for the last such event, or
    what it was if there was none. *)
Theorem run_clock_readings :
  forall (bs : list Batch) (w : World),
    let es := flat_map batch_events bs in
    let n := List.length (filter forwarded es) in
    clock (exec (main_loop bs) w) = clock w /\
    reads (exec (main_loop bs) w) = (reads w + n)%nat /\
    lastmodif (tablet (exec (main_loop bs) w)) =
      match n with
      | O => lastmodif (tablet w)
      | S k => clock w (reads w + k)%nat
      end.
Proof.
  intros bs w es n. subst n. unfold exec. rewrite main_loop_run. cbn [snd].
  fold es. clearbody es. revert w.
  induction es as [| e es IH]; intros w.
  - cbn. rewrite Nat.add_0_r. repeat split.
  - rewrite run_cons. destruct (IH (step e w)) as (Hc & Hr & Hl).
    destruct (step_clock e w) as (Hc' & Hr' & Hl').
    rewrite Hc, Hr, Hl, Hc', Hr', Hl'. cbn [filter].
    destruct (forwarded e); cbn [List.length].
    + split; [ reflexivity | ]. split; [ lia | ].
      destruct (List.length (filter forwarded es)) as [| k].
      * rewrite Nat.add_0_r. reflexivity.
      * f_equal. lia.
    + repeat split.
Qed.

(** ** What a run writes *)

Lemma sync_count_cons (evs : list InputEvent) (writes : list (list InputEvent)) :
  sync_count (evs :: writes) =
  (List.length (filter (fun ev => matches ev EV_SYN.SYN_REPORT) evs) +
   sync_count writes)%nat.
Proof.
  unfold sync_count. cbn [List.concat]. rewrite filter_app, length_app. reflexivity.
Qed.

Lemma translate_sync (es : list InputEvent) (touching b1 b2 : bool) :
  sync_count (translate es touching b1 b2) = List.length (filter is_touch_key es) /\
  Forall (fun evs => has_sync evs = is_snapshot evs) (translate es touching b1 b2).
Proof.
  revert touching. induction es as [| e es IH]; intros touching.
  - split; [ reflexivity | constructor ].
  - cbn [translate filter]. unfold is_axis, is_touch_key in *.
    destruct (event_cases e) as [H | H | H | H | H | H];
      try (unfold matches; rewrite H; simpl;
           first [ apply IH
                 | rewrite sync_count_cons; destruct (IH touching) as [IH1 IH2];
                   split; [ rewrite IH1; reflexivity
                          | constructor; [ reflexivity | exact IH2 ] ]
                 | rewrite sync_count_cons;
                   destruct (IH (value e =? 1)) as [IH1 IH2];
                   split; [ rewrite IH1; reflexivity
                          | constructor; [ reflexivity | exact IH2 ] ] ]).
    destruct (supported_false e H) as (Hp & Hx & Hy & Ht & Hs).
    rewrite Hp, Hx, Hy, Ht. simpl. apply IH.
Qed.

(** X8.  The loop never forwards the sync markers it reads: the number
    of SYN_REPORT events it writes is the number of touch-key events it
    handled, each inside a snapshot burst, and a write that is not a
    snapshot burst holds no SYN_REPORT.  A run of axis events and sync
    markers alone therefore writes no SYN_REPORT at all. *)
Theorem sync_written_per_touch_key :
  forall (bs : list Batch) (w : World),
    exists writes : list (list InputEvent),
      uinput (exec (main_loop bs) w) = uinput w ++ writes /\
      sync_count writes =
        List.length (filter is_touch_key (flat_map batch_events bs)) /\
      Forall (fun evs => has_sync evs = is_snapshot evs) writes.
Proof.
  intros bs w. unfold exec. rewrite main_loop_run. cbn [snd].
  destruct (run_fields (flat_map batch_events bs) w) as (_ & _ & _ & _ & Hu).
  eexists. split; [ exact Hu | apply translate_sync ].
Qed.

Lemma translate_codes (es : list InputEvent) (touching b1 b2 : bool) :
  writes_only written_codes (translate es touching b1 b2).
Proof.
  unfold writes_only. revert touching.
  induction es as [| e es IH]; intros touching; [ constructor | ].
  cbn [translate]. unfold is_axis, is_touch_key.
  destruct (event_cases e) as [H | H | H | H | H | H];
    try (unfold matches; rewrite H; simpl;
         first [ apply IH
               | constructor; [ | apply IH ];
                 repeat constructor; rewrite ?H; simpl; tauto ]).
  destruct (supported_false e H) as (Hp & Hx & Hy & Ht & Hs).
  rewrite Hp, Hx, Hy, Ht. simpl. apply IH.
Qed.

(** X9.  Every event the loop writes carries one of eight codes
    (BTN_TOUCH, BTN_TOOL_PEN, BTN_STYLUS, BTN_STYLUS2, SYN_REPORT,
    ABS_X, ABS_Y, ABS_PRESSURE), each of which [__enter__] enabled on
    the virtual device; BTN_TOOL_RUBBER and SYN_DROPPED, which it also
    enabled, are never written. *)
Theorem writes_use_enabled_codes :
  forall (bs : list Batch) (w : World),
    exists writes : list (list InputEvent),
      uinput (exec (main_loop bs) w) = uinput w ++ writes /\
      writes_only written_codes writes /\
      Forall (Forall (fun ev => has_event Tablet_dev (code ev) = true)) writes /\
      Forall (Forall (fun ev => code ev <> EV_KEY.BTN_TOOL_RUBBER /\
                                code ev <> EV_SYN.SYN_DROPPED)) writes.
Proof.
  intros bs w. unfold exec. rewrite main_loop_run. cbn [snd].
  destruct (run_fields (flat_map batch_events bs) w) as (_ & _ & _ & _ & Hu).
  eexists. split; [ exact Hu | ].
  pose proof (translate_codes (flat_map batch_events bs) (is_touching (tablet w))
                (pressed_button_1 (tablet w)) (pressed_button_2 (tablet w))) as Hc.
  split; [ exact Hc | ]. unfold writes_only in Hc.
  split.
  - eapply Forall_impl; [ | exact Hc ]. intros evs Hevs.
    eapply Forall_impl; [ | exact Hevs ]. intros ev Hin.
    simpl in Hin.
    repeat (destruct Hin as [<- | Hin]; [ reflexivity | ]). contradiction.
  - eapply Forall_impl; [ | exact Hc ]. intros evs Hevs.
    eapply Forall_impl; [ | exact Hevs ]. intros ev Hin.
    simpl in Hin.
    repeat (destruct Hin as [<- | Hin]; [ split; discriminate | ]). contradiction.
Qed.

Lemma reachable_buttons (w : World) :
  Reachable w ->
  pressed_button_1 (tablet w) = false /\ pressed_button_2 (tablet w) = false.
Proof.
  intros Hw. induction Hw as [w | l w Hw IH | e w Hw IH].
  - split; reflexivity.
  - exact IH.
  - destruct (handle_fields e w) as (_ & H1 & H2 & _). rewrite H1, H2. exact IH.
Qed.

Lemma translate_stylus (es : list InputEvent) (touching : bool) :
  Forall stylus_released (translate es touching false false).
Proof.
  revert touching. induction es as [| e es IH]; intros touching; [ constructor | ].
  cbn [translate]. unfold is_axis, is_touch_key.
  destruct (event_cases e) as [H | H | H | H | H | H];
    try (unfold matches; rewrite H; simpl;
         first [ apply IH
               | constructor; [ | apply IH ];
                 unfold stylus_released; repeat constructor;
                 unfold matches; simpl; rewrite ?H; simpl;
                 intros Hm; first [ discriminate Hm | reflexivity ] ]).
  destruct (supported_false e H) as (Hp & Hx & Hy & Ht & Hs).
  rewrite Hp, Hx, Hy, Ht. simpl. apply IH.
Qed.

(** X10.  No raw event reaches a button method: in every world
    reachable from [reset_state] both stylus-button fields are false,
    and every write of the loop from such a world reports BTN_STYLUS
    and BTN_STYLUS2 as 0. *)
Theorem stylus_buttons_never_pressed :
  forall w : World,
    Reachable w ->
    pressed_button_1 (tablet w) = false /\
    pressed_button_2 (tablet w) = false /\
    forall bs : list Batch,
    exists writes : list (list InputEvent),
      uinput (exec (main_loop bs) w) = uinput w ++ writes /\
      Forall stylus_released writes.
Proof.
  intros w Hw. destruct (reachable_buttons Hw) as [H1 H2].
  split; [ exact H1 | ]. split; [ exact H2 | ].
  intros bs. unfold exec. rewrite main_loop_run. cbn [snd].
  destruct (run_fields (flat_map batch_events bs) w) as (_ & _ & _ & _ & Hu).
  rewrite H1, H2 in Hu.
  eexists. split; [ exact Hu | apply translate_stylus ].
Qed.

Lemma stylus_buttons_never_pressed_witness :
  pressed_button_1 (tablet (initial (fun _ => 0))) = false /\
  pressed_button_2 (tablet (initial (fun _ => 0))) = false.
Proof.
  pose proof (stylus_buttons_never_pressed (initial_reachable (fun _ => 0))) as H.
  exact (conj (proj1 H) (proj1 (proj2 H))).
Defined.

(** ** Batches, overflow and the last touch *)

(** X11.  Only the sequence of events counts, not how libevdev cuts it
    into batches nor whether part of it comes from a resync: two lists
    of batches that hand the same events to [handle_event] in the same
    order leave the same world, and handling two lists of batches one
    after the other is handling their concatenation. *)
Theorem batching_is_irrelevant :
  forall (bs1 bs2 : list Batch) (w : World),
    main_loop (bs1 ++ bs2) w = main_loop bs2 (exec (main_loop bs1) w) /\
    (flat_map batch_events bs1 = flat_map batch_events bs2 ->
     main_loop bs1 w = main_loop bs2 w).
Proof.
  intros bs1 bs2 w. split.
  - unfold exec. rewrite !main_loop_run. cbn [snd].
    rewrite flat_map_app, run_app. reflexivity.
  - intros Heq. rewrite !main_loop_run, Heq. reflexivity.
Qed.

Lemma batching_is_irrelevant_witness :
  main_loop [mkBatch [ mk_InputEvent EV_ABS.ABS_X 10;
                       mk_InputEvent EV_KEY.BTN_LEFT 1 ] None]
            (initial (fun _ => 0)) =
  main_loop [ mkBatch [mk_InputEvent EV_ABS.ABS_X 10]
                      (Some [mk_InputEvent EV_KEY.BTN_LEFT 1]) ]
            (initial (fun _ => 0)).
Proof.
  exact (proj2 (batching_is_irrelevant
                  [mkBatch [ mk_InputEvent EV_ABS.ABS_X 10;
                             mk_InputEvent EV_KEY.BTN_LEFT 1 ] None]
                  [ mkBatch [mk_InputEvent EV_ABS.ABS_X 10]
                            (Some [mk_InputEvent EV_KEY.BTN_LEFT 1]) ]
                  (initial (fun _ => 0))) eq_refl).
Defined.

Lemma touch_after_none (es : list InputEvent) (touching : bool) :
  existsb is_touch_key es = false -> touch_after es touching = touching.
Proof.
  revert touching. induction es as [| e es IH]; intros touching H; [ reflexivity | ].
  cbn [existsb] in H. apply orb_false_elim in H. destruct H as [He Hes].
  unfold touch_after. cbn [fold_left]. rewrite He. apply IH, Hes.
Qed.

Lemma touch_after_app (l1 l2 : list InputEvent) (touching : bool) :
  touch_after (l1 ++ l2) touching = touch_after l2 (touch_after l1 touching).
Proof. unfold touch_after. apply fold_left_app. Qed.

(** X12.  After a run [is_touching] says whether the last touch-key
    event read had value 1, whatever came before it and whatever axis
    events, sync markers or unknown codes came after; any value other
    than 1 counts as a release.  A run with no touch-key event leaves
    the field as it was. *)
Theorem last_touch_key_wins :
  forall (es1 es2 : list InputEvent) (e : InputEvent) (w : World),
    existsb is_touch_key es2 = false ->
    (is_touch_key e = true ->
     is_touching (tablet (run (es1 ++ e :: es2) w)) = (value e =? 1)) /\
    is_touching (tablet (run es2 w)) = is_touching (tablet w).
Proof.
  intros es1 es2 e w Hnone. split.
  - intros He.
    destruct (run_fields (es1 ++ e :: es2) w) as (Ht & _). rewrite Ht.
    rewrite touch_after_app. unfold touch_after at 1. cbn [fold_left].
    rewrite He. apply (touch_after_none es2 _ Hnone).
  - destruct (run_fields es2 w) as (Ht & _). rewrite Ht.
    apply touch_after_none, Hnone.
Qed.

Lemma last_touch_key_wins_witness :
  is_touching
    (tablet (run ([mk_InputEvent EV_KEY.BTN_LEFT 1] ++
                  mk_InputEvent EV_KEY.BTN_LEFT 2 ::
                  [mk_InputEvent EV_ABS.ABS_X 4; mk_InputEvent EV_SYN.SYN_REPORT 0])
                 (initial (fun _ => 0)))) = (2 =? 1).
Proof.
  exact (proj1 (last_touch_key_wins [mk_InputEvent EV_KEY.BTN_LEFT 1]
                  [mk_InputEvent EV_ABS.ABS_X 4; mk_InputEvent EV_SYN.SYN_REPORT 0]
                  (mk_InputEvent EV_KEY.BTN_LEFT 2)
                  (initial (fun _ => 0)) eq_refl) eq_refl).
Defined.

(** ** [simulate_first_click] *)

Lemma TabletState_ext (t1 t2 : TabletState) :
  is_away t1 = is_away t2 -> is_touching t1 = is_touching t2 ->
  pressed_button_1 t1 = pressed_button_1 t2 ->
  pressed_button_2 t1 = pressed_button_2 t2 ->
  lastmodif t1 = lastmodif t2 -> t1 = t2.
Proof. destruct t1, t2; simpl; congruence. Qed.

(** The tablet fields and the clock after a run depend on the tablet
    fields and the clock before it, not on what was written. *)
Lemma run_tablet_indep (es : list InputEvent) (a b : World) :
  tablet a = tablet b -> clock a = clock b -> reads a = reads b ->
  tablet (run es a) = tablet (run es b).
Proof.
  revert a b. induction es as [| e es IH]; intros a b Ht Hc Hr; [ exact Ht | ].
  rewrite !run_cons.
  destruct (step_fields e a) as (At & A1 & A2 & Aa & _).
  destruct (step_fields e b) as (Bt & B1 & B2 & Ba & _).
  destruct (step_clock e a) as (Ac & Ar & Al).
  destruct (step_clock e b) as (Bc & Br & Bl).
  apply IH.
  - apply TabletState_ext.
    + rewrite Aa, Ba, Ht. reflexivity.
    + rewrite At, Bt, Ht. reflexivity.
    + rewrite A1, B1, Ht. reflexivity.
    + rewrite A2, B2, Ht. reflexivity.
    + rewrite Al, Bl, Ht, Hc, Hr. reflexivity.
  - rewrite Ac, Bc. exact Hc.
  - rewrite Ar, Br, Hr. reflexivity.
Qed.

(** X13.  [simulate_first_click] writes two groups of three events
    (touch 0, proximity 1, sync; then touch 0, proximity 0, sync) and
    changes nothing else: the tablet fields, [is_away] and [lastmodif]
    among them, stay as they are, the clock is not read and nothing is
    printed.  A run that follows it leaves the same tablet fields and
    makes the same writes as without it. *)
Theorem simulate_first_click_frame :
  forall (es : list InputEvent) (w : World),
    let w' := exec simulate_first_click w in
    simulate_first_click w =
      (Ok tt,
       mkWorld (tablet w)
         (uinput w ++
          [ [ mk_InputEvent EV_KEY.BTN_TOUCH 0; mk_InputEvent EV_KEY.BTN_TOOL_PEN 1;
              mk_InputEvent EV_SYN.SYN_REPORT 0 ];
            [ mk_InputEvent EV_KEY.BTN_TOUCH 0; mk_InputEvent EV_KEY.BTN_TOOL_PEN 0;
              mk_InputEvent EV_SYN.SYN_REPORT 0 ] ])
         (stdout w) (clock w) (reads w)) /\
    tablet (run es w') = tablet (run es w) /\
    exists writes : list (list InputEvent),
      uinput (run es w) = uinput w ++ writes /\
      uinput (run es w') = uinput w' ++ writes.
Proof.
  intros es w w'. subst w'. split.
  - unfold simulate_first_click, bind, uinput_send_events. cbn.
    rewrite <- app_assoc. reflexivity.
  - split.
    + apply run_tablet_indep; reflexivity.
    + destruct (run_fields es w) as (_ & _ & _ & _ & Hu).
      destruct (run_fields es (exec simulate_first_click w)) as (_ & _ & _ & _ & Hu').
      eexists. split; [ exact Hu | exact Hu' ].
Qed.

(** ** The driver version line *)

(** X14.  The three numbers [print_capabilities] prints for a driver
    version [v] are its digits in base 256 above the first two: [v] is
    major * 65536 + minor * 256 + patch with minor and patch between 0
    and 255; and a version put together that way from such numbers is
    printed as those numbers. *)
Theorem driver_version_fields_decode :
  forall v : Z,
    let '(major, minor, patch) := driver_version_fields v in
    v = major * 65536 + minor * 256 + patch /\
    0 <= minor <= 255 /\ 0 <= patch <= 255 /\
    forall a b c : Z,
      0 <= b <= 255 -> 0 <= c <= 255 ->
      driver_version_fields (a * 65536 + b * 256 + c) = (a, b, c).
Proof.
  assert (Hf : forall v, driver_version_fields v =
                         (v / 65536, (v / 256) mod 256, v mod 256)).
  { intros v. unfold driver_version_fields.
    change 255 with (Z.ones 8).
    rewrite !Z.land_ones, !Z.shiftr_div_pow2 by lia. reflexivity. }
  intros v. rewrite Hf.
  split; [ | split; [ | split ] ].
  - pose proof (Z.div_mod v 256 ltac:(lia)).
    pose proof (Z.div_mod (v / 256) 256 ltac:(lia)).
    replace (v / 65536) with (v / 256 / 256)
      by (rewrite Z.div_div by lia; reflexivity).
    lia.
  - pose proof (Z.mod_pos_bound (v / 256) 256 ltac:(lia)). lia.
  - pose proof (Z.mod_pos_bound v 256 ltac:(lia)). lia.
  - intros a b c Hb Hc. rewrite Hf.
    assert (H1 : (a * 65536 + b * 256 + c) / 256 = a * 256 + b).
    { replace (a * 65536 + b * 256 + c) with (c + (a * 256 + b) * 256) by lia.
      rewrite Z.div_add by lia. rewrite Z.div_small by lia. lia. }
    assert (H2 : (a * 65536 + b * 256 + c) / 65536 = a).
    { replace 65536 with (256 * 256) at 2 by reflexivity.
      rewrite <- Z.div_div by lia. rewrite H1.
      replace (a * 256 + b) with (b + a * 256) by lia.
      rewrite Z.div_add by lia. rewrite Z.div_small by lia. lia. }
    rewrite H1, H2. f_equal; [ f_equal | ].
    + replace (a * 256 + b) with (b + a * 256) by lia.
      rewrite Z.mod_add by lia. apply Z.mod_small. lia.
    + replace (a * 65536 + b * 256 + c) with (c + (a * 256 + b) * 256) by lia.
      rewrite Z.mod_add by lia. apply Z.mod_small. lia.
Qed.

Lemma driver_version_fields_decode_witness :
  0 <= 1 <= 255 /\ 0 <= 1 <= 255 /\
  driver_version_fields (1 * 65536 + 1 * 256 + 1) = (1, 1, 1).
Proof.
  assert (Hb : 0 <= 1 <= 255) by lia.
  split; [ exact Hb | ]. split; [ exact Hb | ].
  pose proof (driver_version_fields_decode 0) as H.
  unfold driver_version_fields in H. cbn in H.
  exact (proj2 (proj2 (proj2 H)) 1 1 1 Hb Hb).
Defined.
